(** * ollama-backend: the bounded tool-augmented agent loop and the client wrappers

    A shallow embedding of
    - [backend/langgraph-project/langgraph_agent.py] (tools, [OllamaAgent]),
    - [backend/langgraph-project/example_usage.py] ([OllamaClient]),
    - [backend/usage/ollama_service.py] ([ask_ollama_structured]),
    followed by the properties the specification states about them.

    Conventions.  A Python call that may raise is a value of [outcome]: either
    [Returns v] or [Raises e], for the exceptions that [except Exception]
    catches.  Where the input of a call decides whether it is left through
    [SystemExit] or does not come back at all, as for the [eval] of a text of
    the model, the call is a value of [call].  Everything the scripts obtain from outside the
    repository (the model endpoint, the prebuilt tool node, [eval], the clock,
    [subprocess.run], [requests.get], [json.loads]) is an oracle: a field of a
    record or an argument, over which every theorem quantifies.  Console
    output and the log of model calls are threaded explicitly. *)

From Stdlib Require Import String Ascii List ZArith Lia Bool DecimalString.
Import ListNotations.
Open Scope string_scope.
Open Scope Z_scope.

(* ===================================================================== *)
(** * Python values used by all three scripts *)
(* ===================================================================== *)

Module Py.

(** Exceptions, as far as the scripts tell them apart: [except Exception]
    catches all of them, [except json.JSONDecodeError] only the first. *)
Inductive exn : Type :=
| JSONDecodeError (msg : string)
| IndexError (msg : string)
| Exception (class msg : string).

(** [str(e)] *)
Definition str_exn (e : exn) : string :=
  match e with
  | JSONDecodeError msg => msg
  | IndexError msg => msg
  | Exception _ msg => msg
  end.

Inductive outcome (A : Type) : Type :=
| Returns (a : A)
| Raises (e : exn).
Arguments Returns {A} a.
Arguments Raises {A} e.

(** What [except Exception] does not catch: the exceptions that derive from
    [BaseException] only. *)
Inductive exit : Type :=
| SystemExit (code : string)
| KeyboardInterrupt
| GeneratorExit.

(** A call on which the input decides more than an [outcome] can tell: it
    completes, by returning or by raising an exception that derives from
    [Exception]; or it is left through an [exit]; or it does not come back. *)
Inductive call (A : Type) : Type :=
| Completes (o : outcome A)
| Exits (x : exit)
| Hangs.
Arguments Completes {A} o.
Arguments Exits {A} x.
Arguments Hangs {A}.

(** What a reply of the client holds under a text key: a [str], or [None]. *)
Inductive value : Type :=
| PyNone
| PyStr (s : string).

(** [str(v)], which is what [print(v)] writes *)
Definition str_value (v : value) : string :=
  match v with
  | PyNone => "None"
  | PyStr s => s
  end.

(** The double quote, for the texts of the interpreter that contain one *)
Definition dq : string := String (ascii_of_nat 34) EmptyString.

(** [sys.stdout]: the texts written so far, oldest first. *)
Definition console := list string.

Definition nl : string := String (ascii_of_nat 10) EmptyString.

(** [print(s, end=e)] *)
Definition print_end (s e : string) (out : console) : console :=
  (out ++ [(s ++ e)%string])%list.
(** [print(s)] *)
Definition print (s : string) (out : console) : console := print_end s nl out.

(** [s * n] *)
Fixpoint str_repeat (s : string) (n : nat) : string :=
  match n with
  | O => EmptyString
  | S n' => s ++ str_repeat s n'
  end.

(** [str(n)] for an [int] *)
Definition str_int (n : Z) : string := NilZero.string_of_int (Z.to_int n).

(** [needle in hay] for two [str] *)
Fixpoint str_in (needle hay : string) : bool :=
  String.prefix needle hay ||
  match hay with
  | EmptyString => false
  | String _ hay' => str_in needle hay'
  end.

(** [hay.split(sep)] for a one-character separator *)
Fixpoint split_char (sep : ascii) (hay : string) : list string :=
  match hay with
  | EmptyString => [EmptyString]
  | String c hay' =>
      if Ascii.eqb c sep then EmptyString :: split_char sep hay'
      else match split_char sep hay' with
           | [] => [String c EmptyString]
           | w :: ws => String c w :: ws
           end
  end.

(** The methods of [str] whose result depends on the Unicode tables of the
    interpreter.  The scripts are verified for every implementation. *)
Class StrMethods : Type := {
  str_lower : string -> string;   (* s.lower() *)
  str_strip : string -> string    (* s.strip() *)
}.

(** ** The ASCII instance, used to run the definitions on examples *)

Definition ascii_lower (c : ascii) : ascii :=
  let n := nat_of_ascii c in
  if ((65 <=? n) && (n <=? 90))%nat then ascii_of_nat (n + 32) else c.

Fixpoint map_string (f : ascii -> ascii) (s : string) : string :=
  match s with
  | EmptyString => EmptyString
  | String c s' => String (f c) (map_string f s')
  end.

Definition is_space (c : ascii) : bool :=
  let n := nat_of_ascii c in
  (((9 <=? n) && (n <=? 13)) || ((28 <=? n) && (n <=? 32)))%nat.

Fixpoint lstrip (s : string) : string :=
  match s with
  | EmptyString => EmptyString
  | String c s' => if is_space c then lstrip s' else s
  end.

Fixpoint rstrip (s : string) : string :=
  match s with
  | EmptyString => EmptyString
  | String c s' =>
      match rstrip s' with
      | EmptyString => if is_space c then EmptyString else String c EmptyString
      | r => String c r
      end
  end.

Definition AsciiStr : StrMethods := {|
  str_lower := map_string ascii_lower;
  str_strip := fun s => rstrip (lstrip s)
|}.

End Py.
Import Py.

(* ===================================================================== *)
(** * langgraph_agent.py *)
(* ===================================================================== *)

(** ** Messages ([langchain_core.messages]) *)

Module Messages.

Record ToolCall : Type := {
  tc_name : string;
  tc_args : list (string * string);
  tc_id : string
}.

(** Only [AIMessage] carries the attribute [tool_calls]. *)
Inductive message : Type :=
| HumanMessage (content : string)
| AIMessage (content : string) (tool_calls : list ToolCall)
| SystemMessage (content : string)
| ToolMessage (content : string) (tool_call_id : string).

(** [m.content] *)
Definition content (m : message) : string :=
  match m with
  | HumanMessage c => c
  | AIMessage c _ => c
  | SystemMessage c => c
  | ToolMessage c _ => c
  end.

(** [isinstance(m, AIMessage)] *)
Definition is_AIMessage (m : message) : bool :=
  match m with
  | AIMessage _ _ => true
  | _ => false
  end.

(** [hasattr(m, 'tool_calls') and m.tool_calls], as a truth value *)
Definition has_tool_calls (m : message) : bool :=
  match m with
  | AIMessage _ (_ :: _) => true
  | _ => false
  end.

End Messages.
Import Messages.

(** ** The mutable state of the process

    What a run can change outside the graph state: the console, and the
    model endpoint, which sees one prompt per call. *)
Record World : Type := {
  stdout : console;
  llm_calls : list (list message)
}.

Definition world0 : World := {| stdout := []; llm_calls := [] |}.

Definition with_stdout (f : console -> console) (w : World) : World :=
  {| stdout := f (stdout w); llm_calls := llm_calls w |}.

(** [print(s)] as a change of the world *)
Definition say (s : string) (w : World) : World := with_stdout (print s) w.

(** An effectful Python call: it may change the world, and it returns or
    raises. *)
Definition Eff (A : Type) : Type := World -> outcome A * World.

Module Colors.
Definition esc : string := String (ascii_of_nat 27) EmptyString.
Definition HEADER := esc ++ "[95m".
Definition BLUE := esc ++ "[94m".
Definition CYAN := esc ++ "[96m".
Definition GREEN := esc ++ "[92m".
Definition YELLOW := esc ++ "[93m".
Definition RED := esc ++ "[91m".
Definition END := esc ++ "[0m".
Definition BOLD := esc ++ "[1m".
End Colors.

(** ** Tool definitions *)

Module Tools.

(** [subprocess.CompletedProcess], with [capture_output=True, text=True] *)
Record CompletedProcess : Type := {
  returncode : Z;
  proc_stdout : string
}.

(** What the tools reach outside the script.
    - [py_eval expression] is the [eval] of [expression] with no builtins
      and no names, followed by the formatting of its value inside the
      f-string; both happen inside the [try] of [calculate].  The expression
      is text of the model: it can reach, through the attributes of a
      literal, code that raises [SystemExit], and it can be one whose
      evaluation does not end.
    - [strftime_now fmt] is [datetime.now().strftime(fmt)].
    - [subprocess_run argv] is [subprocess.run(argv, capture_output=True,
      text=True, timeout=5)]. *)
Record Host : Type := {
  py_eval : string -> call string;
  strftime_now : string -> string;
  subprocess_run : list string -> outcome CompletedProcess
}.

(** A function under [@tool]: its name, the names of its parameters and
    the function itself. *)
Inductive tool_func : Type :=
| Func0 (f : World -> call string * World)
| Func1 (f : string -> World -> call string * World)
| Func2 (f : string -> string -> World -> call string * World).

(** A function that completes whatever its input is *)
Definition completes {A : Type} (f : Eff A) : World -> call A * World :=
  fun w => let '(o, w') := f w in (Completes o, w').

Record StructuredTool : Type := {
  name : string;
  args : list string;
  func : tool_func
}.

Section WithHost.
Context {SM : StrMethods} (host : Host).

Definition calculate (expression : string) : World -> call string * World := fun w =>
  match py_eval host expression with
  | Completes (Returns result) => (Completes (Returns ("Result: " ++ result)), w)
  | Completes (Raises e) => (Completes (Returns ("Error calculating: " ++ str_exn e)), w)
  | Exits x => (Exits x, w)
  | Hangs => (Hangs, w)
  end.

Definition get_current_time : Eff string := fun w =>
  (Returns (strftime_now host "%Y-%m-%d %H:%M:%S"), w).

Definition check_docker_status : Eff string := fun w =>
  match subprocess_run host ["docker"; "ps"] with
  | Returns result =>
      if returncode result =? 0 then
        let container_count :=
          Z.of_nat (List.length
                      (split_char "010"%char (str_strip (proc_stdout result)))) - 1 in
        (Returns ("Docker is running. " ++ str_int container_count
                    ++ " container(s) active."), w)
      else (Returns "Docker is not running or not accessible.", w)
  | Raises e => (Returns ("Cannot check Docker status: " ++ str_exn e), w)
  end.

(** The dict [docs], in insertion order, which is the order of the loop. *)
Definition docs : list (string * string) :=
  [ ("docker", "Docker is a platform for developing, shipping, and running applications in containers. Key commands: docker run, docker build, docker ps.");
    ("ollama", "Ollama is a tool for running large language models locally. Use 'ollama pull' to download models and 'ollama run' to interact with them.");
    ("langgraph", "LangGraph is a library for building stateful, multi-actor applications with LLMs. It uses graphs to define agent workflows.");
    ("zscaler", "Zscaler is a cloud security platform. For Docker, add the Zscaler root certificate to the container's trust store.") ].

Definition search_documentation (query : string) : Eff string := fun w =>
  let query_lower := str_lower query in
  match List.find (fun kv => str_in (fst kv) query_lower) docs with
  | Some (key, value) =>
      (Returns ("Documentation for '" ++ key ++ "': " ++ value), w)
  | None =>
      (Returns "No documentation found for that query. Try: docker, ollama, langgraph, or zscaler.", w)
  end.

Definition write_to_memory (key value : string) : Eff string := fun w =>
  (Returns ("Stored '" ++ key ++ "' = '" ++ value ++ "' in memory."), w).

(** List of all available tools *)
Definition tools : list StructuredTool :=
  [ {| name := "calculate"; args := ["expression"]; func := Func1 calculate |};
    {| name := "get_current_time"; args := [];
       func := Func0 (completes get_current_time) |};
    {| name := "check_docker_status"; args := [];
       func := Func0 (completes check_docker_status) |};
    {| name := "search_documentation"; args := ["query"];
       func := Func1 (fun query => completes (search_documentation query)) |};
    {| name := "write_to_memory"; args := ["key"; "value"];
       func := Func2 (fun key value => completes (write_to_memory key value)) |} ].

End WithHost.


(** A tool leaves the world as it found it. *)
Definition keeps_world (t : StructuredTool) : Prop :=
  match func t with
  | Func0 f => forall w, snd (f w) = w
  | Func1 f => forall a w, snd (f a w) = w
  | Func2 f => forall a b w, snd (f a b w) = w
  end.

End Tools.


(** ** Agent state and agent nodes *)

Module Agent.

(** The state of the agent (a [TypedDict] with all five keys present) *)
Record AgentState : Type := {
  messages : list message;
  task : string;
  result : string;
  iterations : Z;
  max_iterations : Z
}.

(** How the graph merges what a node returns into the state: the key
    [messages] is annotated with [operator.add], every other key takes the
    value written last. *)
Definition apply_update (state update : AgentState) : AgentState :=
  {| messages := (messages state ++ messages update)%list;
     task := task update;
     result := result update;
     iterations := iterations update;
     max_iterations := max_iterations update |}.

(** The prebuilt tool node returns an update that holds the key [messages]
    only. *)
Definition add_messages (state : AgentState) (ms : list message) : AgentState :=
  {| messages := (messages state ++ ms)%list;
     task := task state;
     result := result state;
     iterations := iterations state;
     max_iterations := max_iterations state |}.

(** What [llm_with_tools.invoke] hands back: a [str], or a message object. *)
Inductive response : Type :=
| Text (s : string)
| Message (m : message).

(** [self].  The two oracles are the model bound to the tools, and the
    prebuilt [ToolNode(tools)] that [_create_graph] puts into the graph.
    - [self_llm_with_tools prompt] is the outcome of
      [self.llm_with_tools.invoke(prompt)].  Within one run every call has a
      longer prompt than the one before, so a function of the prompt can
      give each call of a run an outcome of its own.
    - [self_tool_node state] is the list of messages in the update that the
      tool node returns, or the exception it raises.  The tool node runs
      tools of the registry only, and these neither print nor call the
      model.
    - [self_graph_limit_error limit] is the exception with which the compiled
      graph [self.graph] gives up at the recursion limit [limit] (the
      library's [GraphRecursionError], with the library's text). *)
Record OllamaAgent : Type := {
  self_model_name : string;
  self_max_iterations : Z;
  self_llm_with_tools : list message -> outcome response;
  self_tool_node : AgentState -> outcome (list message);
  self_graph_limit_error : nat -> exn
}.

Definition system_message : message :=
  SystemMessage "You are a helpful AI assistant with access to tools. 
When you need to use a tool, format your response to indicate which tool to use.
Always think step-by-step and use tools when appropriate.
After using tools, provide a clear final answer to the user.".

(** The world after one more model call *)
Definition record_call (prompt : list message) (w : World) : World :=
  {| stdout := stdout w; llm_calls := (llm_calls w ++ [prompt])%list |}.

(** [self.llm_with_tools.invoke(prompt)]: the endpoint sees the prompt. *)
Definition invoke_llm (self : OllamaAgent) (prompt : list message) : Eff response :=
  fun w => (self_llm_with_tools self prompt, record_call prompt w).

(** Convert response to AIMessage if it's not already: a [str] is
    wrapped, anything else is taken as it is. *)
Definition to_ai_message (r : response) : message :=
  match r with
  | Text s => AIMessage s []
  | Message m => m
  end.

(** The main agent reasoning node *)
Definition _agent_node (self : OllamaAgent) (state : AgentState) : Eff AgentState :=
  fun w =>
    let messages_ := messages state in
    let iterations_ := iterations state in
    if iterations_ >=? self_max_iterations self then
      (Returns {| messages := messages state;
                  task := task state;
                  result := "Maximum iterations reached.";
                  iterations := iterations_;
                  max_iterations := max_iterations state |}, w)
    else
      match invoke_llm self (system_message :: messages_) w with
      | (Returns response, w') =>
          let ai_message := to_ai_message response in
          (Returns {| messages := [ai_message];
                      task := task state;
                      result := result state;
                      iterations := iterations_ + 1;
                      max_iterations := max_iterations state |}, w')
      | (Raises e, w') =>
          let error_message := AIMessage ("Error: " ++ str_exn e) [] in
          (Returns {| messages := [error_message];
                      task := task state;
                      result := result state;
                      iterations := iterations_ + 1;
                      max_iterations := max_iterations state |}, w')
      end.

(** [messages[-1]] *)
Fixpoint last_message (ms : list message) : outcome message :=
  match ms with
  | [] => Raises (IndexError "list index out of range")
  | [m] => Returns m
  | _ :: ms' => last_message ms'
  end.

Definition tool_indicators : list string :=
  ["calculate"; "time"; "docker"; "search"; "memory"].

(** Determine if we should continue to tools or end *)
Definition _should_continue {SM : StrMethods} (self : OllamaAgent) (state : AgentState)
  : outcome string :=
  match last_message (messages state) with
  | Raises e => Raises e
  | Returns last =>
      if iterations state >=? self_max_iterations self then Returns "end"
      else if has_tool_calls last then Returns "continue"
      else if is_AIMessage last
              && existsb (fun indicator => str_in indicator (str_lower (content last)))
                         tool_indicators
      then Returns "continue"
      else Returns "end"
  end.

(** *** The graph built by [_create_graph] *)

Inductive node : Type := agent | tools | END.

(** The path map of [add_conditional_edges] *)
Definition path_map : list (string * node) := [("continue", tools); ("end", END)].

Fixpoint lookup_path (key : string) (m : list (string * node)) : outcome node :=
  match m with
  | [] => Raises (Exception "KeyError" key)
  | (k, n) :: m' => if String.eqb k key then Returns n else lookup_path key m'
  end.

(** Where a run stands: the node to execute next and the state it will see. *)
Record config : Type := {
  at_node : node;
  state_of : AgentState
}.

(** One node execution, followed by the edge that leaves the node:
    - entry point [agent], then the conditional edge through
      [_should_continue] and [path_map];
    - [tools] always returns to [agent]. *)
Definition graph_step {SM : StrMethods} (self : OllamaAgent) (c : config) : Eff config :=
  fun w =>
    match at_node c with
    | agent =>
        match _agent_node self (state_of c) w with
        | (Returns update, w') =>
            let state' := apply_update (state_of c) update in
            match _should_continue self state' with
            | Returns key =>
                match lookup_path key path_map with
                | Returns n => (Returns {| at_node := n; state_of := state' |}, w')
                | Raises e => (Raises e, w')
                end
            | Raises e => (Raises e, w')
            end
        | (Raises e, w') => (Raises e, w')
        end
    | tools =>
        match self_tool_node self (state_of c) with
        | Returns ms =>
            (Returns {| at_node := agent; state_of := add_messages (state_of c) ms |}, w)
        | Raises e => (Raises e, w)
        end
    | END => (Returns c, w)
    end.

(** The loop of [graph.invoke].  Every round of the library prepares the
    node to execute next and stops when there is none; the number of rounds
    is bounded, and the round that finds [END] counts: a run of k node
    executions returns when k is below the bound, and gives up with
    [limit_error] when it is not. *)
Fixpoint graph_run {SM : StrMethods} (self : OllamaAgent) (limit_error : exn)
  (rounds_left : nat) (c : config) : Eff AgentState :=
  fun w =>
    match rounds_left with
    | O => (Raises limit_error, w)
    | S rounds_left' =>
        match at_node c with
        | END => (Returns (state_of c), w)
        | _ =>
            match graph_step self c w with
            | (Returns c', w') => graph_run self limit_error rounds_left' c' w'
            | (Raises e, w') => (Raises e, w')
            end
        end
    end.

(** [self.graph.invoke(initial_state)] under the recursion limit
    [recursion_limit] *)
Definition graph_invoke {SM : StrMethods} (self : OllamaAgent) (recursion_limit : nat)
  (initial_state : AgentState) : Eff AgentState :=
  graph_run self (self_graph_limit_error self recursion_limit) recursion_limit
    {| at_node := agent; state_of := initial_state |}.

Definition initial_state (self : OllamaAgent) (task_ : string) : AgentState :=
  {| messages := [HumanMessage task_];
     task := task_;
     result := "";
     iterations := 0;
     max_iterations := self_max_iterations self |}.

(** [if verbose: print(line) ...], the lines in the order of the source *)
Definition prints (verbose : bool) (lines : list string) (w : World) : World :=
  if verbose then fold_left (fun w line => say line w) lines w else w.

(** Run the agent on a given task.  [recursion_limit] is the recursion
    limit of the library for one [graph.invoke] (25 unless configured
    otherwise). *)
Definition run {SM : StrMethods} (self : OllamaAgent) (recursion_limit : nat)
  (task_ : string) (verbose : bool) : World -> string * World :=
  fun w =>
    let w :=
      prints verbose
        [ nl ++ Colors.BOLD ++ Colors.CYAN ++ str_repeat "=" 70 ++ Colors.END;
          Colors.BOLD ++ Colors.CYAN ++ "Running Agent: " ++ self_model_name self
            ++ Colors.END;
          Colors.BOLD ++ Colors.CYAN ++ str_repeat "=" 70 ++ Colors.END;
          nl ++ Colors.GREEN ++ "Task:" ++ Colors.END ++ " " ++ task_ ++ nl ] w in
    (* Run the graph *)
    match graph_invoke self recursion_limit (initial_state self task_) w with
    | (Returns final_state, w) =>
        (* Extract the final message *)
        let result_ :=
          match last_message (messages final_state) with
          | Returns last => content last
          | Raises _ => "No response generated."
          end in
        let w :=
          prints verbose
            [ Colors.GREEN ++ "Response:" ++ Colors.END;
              str_repeat "-" 70;
              result_;
              str_repeat "-" 70;
              Colors.CYAN ++ "Iterations: " ++ str_int (iterations final_state)
                ++ Colors.END ++ nl ] w in
        (result_, w)
    | (Raises e, w) =>
        let error_msg := "Error running agent: " ++ str_exn e in
        let w := prints verbose [Colors.RED ++ error_msg ++ Colors.END] w in
        (error_msg, w)
    end.

(** *** Runs, as the properties below speak about them *)

(** The configurations and worlds a run of the graph on [task_] from the
    world [w0] passes through. *)
Inductive reachable {SM : StrMethods} (self : OllamaAgent) (task_ : string) (w0 : World)
  : config -> World -> Prop :=
| reach_entry :
    reachable self task_ w0 {| at_node := agent; state_of := initial_state self task_ |} w0
| reach_step c w c' w' :
    reachable self task_ w0 c w ->
    graph_step self c w = (Returns c', w') ->
    reachable self task_ w0 c' w'.

(** The message an agent turn appends for an outcome of the model call *)
Definition reply_of (o : outcome response) : message :=
  match o with
  | Returns r => to_ai_message r
  | Raises e => AIMessage ("Error: " ++ str_exn e) []
  end.

(** The model calls made between two worlds *)
Definition calls_between (w w' : World) (calls : list (list message)) : Prop :=
  llm_calls w' = (llm_calls w ++ calls)%list.

(** [needle] occurs in [hay] *)
Definition substring_of (needle hay : string) : Prop :=
  exists before after, hay = before ++ needle ++ after.

(** The latest message requests a tool, in the words of the continuation
    rule: an explicit tool-call annotation, or one of the five keywords in
    the lowercased text of an assistant message. *)
Definition requests_tool {SM : StrMethods} (m : message) : Prop :=
  (exists c calls, m = AIMessage c calls /\ calls <> [])
  \/ (exists c calls, m = AIMessage c calls
       /\ exists keyword,
            In keyword ["calculate"; "time"; "docker"; "search"; "memory"]
            /\ substring_of keyword (str_lower c)).

End Agent.


(* ===================================================================== *)
(** * The [ollama] client library, as the two scripts below use it *)
(* ===================================================================== *)

Module Ollama.

(** A chat message, [{'role': ..., 'content': ...}] in a request and the
    message object of the client in a reply.  For either key, the Rocq [None]
    says that the key is missing; a key that is there holds a [value], which
    for the content of a reply may be Python's [None]. *)
Record MessageDict : Type := {
  role : option string;
  content : option value
}.

(** The dict returned by [client.chat], and each chunk of its stream *)
Record ChatResponse : Type := {
  message : option MessageDict
}.

(** The dict returned by [client.generate], and each chunk of its stream *)
Record GenerateResponse : Type := {
  response : option value
}.

Record ModelInfo : Type := {
  model_name : option string;
  model_size : option Z
}.

(** The dict returned by [client.list] *)
Record ListResponse : Type := {
  models : option (list ModelInfo)
}.

(** An iterator under a [for] loop: the items it yields, and the exception
    that ends it, if one does. *)
Definition stream (A : Type) : Type := (list A * option exn)%type.

(** [d.get('message', {}).get('content', default)]: the default stands in
    for a missing key only, a content of [None] comes back as [None]. *)
Definition get_message_content (d : ChatResponse) (default : string) : value :=
  match message d with
  | None => PyStr default
  | Some m =>
      match content m with
      | None => PyStr default
      | Some c => c
      end
  end.

(** [d.get('response', default)] *)
Definition get_response (d : GenerateResponse) (default : string) : value :=
  match response d with
  | None => PyStr default
  | Some r => r
  end.

(** A value handed back where the signature says [Optional[str]] *)
Definition optional (v : value) : option string :=
  match v with
  | PyNone => None
  | PyStr s => Some s
  end.

(** The [TypeError] of [json.loads(None)] *)
Definition loads_type_error : exn :=
  Exception "TypeError" "the JSON object must be str, bytes or bytearray, not NoneType".

(** The [TypeError] of [full_response += None] *)
Definition concat_type_error : exn :=
  Exception "TypeError"
    ("can only concatenate str (not " ++ dq ++ "NoneType" ++ dq ++ ") to str").

End Ollama.

(* ===================================================================== *)
(** * ollama_service.py *)
(* ===================================================================== *)

Module Service.
Import Ollama.

(** What [ask_ollama_structured] reaches outside the script.
    - [chat host model messages format] is
      [ollama.Client(host=host).chat(model=, messages=, format=)].
    - [json_loads s] is [json.loads(s)] for a [str]: the decoded value, or
      the message of the [json.JSONDecodeError] it raises. *)
Record Host (JSON : Type) : Type := {
  chat : string -> string -> list MessageDict -> string -> outcome ChatResponse;
  json_loads : string -> JSON + string
}.
Arguments chat {JSON} _ _ _ _ _.
Arguments json_loads {JSON} _ _.

Definition default_host : string := "http://localhost:11434".

(** The two messages of the request; a missing system message is replaced
    by the default that asks for JSON. *)
Definition chat_messages (system_message : option string) (prompt : string)
  : list MessageDict :=
  let system_message :=
    match system_message with
    | None => "You are a helpful assistant. Provide your answer in JSON format."
    | Some s => s
    end in
  [ {| role := Some "system"; content := Some (PyStr system_message) |};
    {| role := Some "user"; content := Some (PyStr prompt) |} ].

(** A call with [out] on the console either returns the decoded value or
    raises, and leaves the console as in the second component. *)
Definition ask_ollama_structured {JSON : Type} (h : Host JSON)
  (model prompt : string) (system_message : option string) (host : string)
  : console -> outcome JSON * console :=
  fun out =>
    let messages := chat_messages system_message prompt in
    match chat h host model messages "json" with
    | Raises e => (Raises e, out)
    | Returns response_raw =>
        match get_message_content response_raw "{}" with
        | PyStr response_content =>
            match json_loads h response_content with
            | inl value => (Returns value, out)
            | inr msg =>
                (Raises (JSONDecodeError msg),
                 print ("Warning: Model response was not valid JSON. Raw response: "
                          ++ response_content) out)
            end
        | PyNone => (Raises loads_type_error, out)
        end
    end.

End Service.

(* ===================================================================== *)
(** * example_usage.py *)
(* ===================================================================== *)

Module Client.
Import Ollama.

Record HttpResponse : Type := {
  status_code : Z
}.

(** The [verify] argument of [requests.get]: [True], or the path of a
    certificate bundle. *)
Inductive verify : Type :=
| VerifyTrue
| CABundle (path : string).

(** What the wrapper reaches outside the script: [requests.get(url,
    verify=, timeout=)] and the methods of [ollama.Client(host=host)]. *)
Record Network : Type := {
  requests_get : string -> verify -> Z -> outcome HttpResponse;
  client_list : string -> outcome ListResponse;
  client_generate : string -> string -> string -> outcome GenerateResponse;
  client_generate_stream : string -> string -> string -> stream GenerateResponse;
  client_chat : string -> string -> list MessageDict -> outcome ChatResponse;
  client_chat_stream : string -> string -> list MessageDict -> stream ChatResponse
}.

(** Wrapper class for Ollama client with proper certificate handling *)
Record OllamaClient : Type := {
  host : string;
  verify_ssl : verify
}.

Fixpoint environ_get (key : string) (environ : list (string * string)) : option string :=
  match environ with
  | [] => None
  | (k, v) :: environ' => if String.eqb k key then Some v else environ_get key environ'
  end.

Definition __init__ (environ : list (string * string)) (host_ : string) : OllamaClient :=
  {| host := host_;
     verify_ssl :=
       match environ_get "REQUESTS_CA_BUNDLE" environ with
       | Some path => CABundle path
       | None => VerifyTrue
       end |}.

Section WithNetwork.
Variable net : Network.

(** Check if Ollama is running and accessible *)
Definition check_connection (self : OllamaClient) : console -> outcome bool * console :=
  fun out =>
    match requests_get net (host self ++ "/api/version") (verify_ssl self) 5 with
    | Returns response => (Returns (status_code response =? 200), out)
    | Raises e => (Returns false, print ("Connection error: " ++ str_exn e) out)
    end.

(** List all available models *)
Definition list_models (self : OllamaClient)
  : console -> outcome (list ModelInfo) * console :=
  fun out =>
    match client_list net (host self) with
    | Returns models_ =>
        (Returns match models models_ with
                 | Some ms => ms
                 | None => []
                 end, out)
    | Raises e => (Returns [], print ("Error listing models: " ++ str_exn e) out)
    end.

(** The body of the streaming [for] loops: print each piece as it arrives
    and add it to the pieces collected so far.  A piece that is [None] is
    printed as such, and adding it to the text raises. *)
Fixpoint stream_loop {A : Type} (piece : A -> value) (chunks : list A)
  (full_response : string) (out : console) : outcome string * console :=
  match chunks with
  | [] => (Returns full_response, out)
  | chunk :: chunks' =>
      let content := piece chunk in
      let out := print_end (str_value content) "" out in
      match content with
      | PyStr text => stream_loop piece chunks' (full_response ++ text) out
      | PyNone => (Raises concat_type_error, out)
      end
  end.

(** Generate a response from the model.  The Rocq [None] in the result is
    Python's [None]. *)
Definition generate (self : OllamaClient) (model prompt : string) (stream_ : bool)
  : console -> outcome (option string) * console :=
  fun out =>
    if stream_ then
      let out := print_end (nl ++ model ++ ":") " " out in
      let '(chunks, failure) := client_generate_stream net (host self) model prompt in
      match stream_loop (fun chunk => get_response chunk "") chunks "" out with
      | (Returns full_response, out) =>
          match failure with
          | None => (Returns (Some full_response), print "" out)
          | Some e =>
              (Returns None, print ("Error generating response: " ++ str_exn e) out)
          end
      | (Raises e, out) =>
          (Returns None, print ("Error generating response: " ++ str_exn e) out)
      end
    else
      match client_generate net (host self) model prompt with
      | Returns response => (Returns (optional (get_response response "")), out)
      | Raises e => (Returns None, print ("Error generating response: " ++ str_exn e) out)
      end.

(** Chat with the model using conversation history *)
Definition chat (self : OllamaClient) (model : string) (messages : list MessageDict)
  (stream_ : bool) : console -> outcome (option string) * console :=
  fun out =>
    if stream_ then
      let out := print_end (nl ++ model ++ ":") " " out in
      let '(chunks, failure) := client_chat_stream net (host self) model messages in
      match stream_loop (fun chunk => get_message_content chunk "") chunks "" out with
      | (Returns full_response, out) =>
          match failure with
          | None => (Returns (Some full_response), print "" out)
          | Some e => (Returns None, print ("Error in chat: " ++ str_exn e) out)
          end
      | (Raises e, out) => (Returns None, print ("Error in chat: " ++ str_exn e) out)
      end
    else
      match client_chat net (host self) model messages with
      | Returns response => (Returns (optional (get_message_content response "")), out)
      | Raises e => (Returns None, print ("Error in chat: " ++ str_exn e) out)
      end.

End WithNetwork.

End Client.


(* ===================================================================== *)
(** * Concrete agents and hosts, to run the definitions on *)
(* ===================================================================== *)

Module Examples.
Import Agent.

(** The exception of the graph library at a recursion limit, with the
    sentences its text starts with *)
Definition recursion_error (limit : nat) : exn :=
  Exception "GraphRecursionError"
    ("Recursion limit of " ++ str_int (Z.of_nat limit)
       ++ " reached without hitting a stop condition. You can increase the limit by setting the `recursion_limit` config key.").

(** A model that always asks for the calculator, a tool node that answers,
    two iterations. *)
Definition chatty : OllamaAgent :=
  {| self_model_name := "llama3.2";
     self_max_iterations := 2;
     self_llm_with_tools := fun _ => Returns (Text "Let me calculate that.");
     self_tool_node := fun _ => Returns [ToolMessage "Result: 4" "call_1"];
     self_graph_limit_error := recursion_error |}.

(** A model that answers at once, five iterations. *)
Definition direct : OllamaAgent :=
  {| self_model_name := "llama3.2";
     self_max_iterations := 5;
     self_llm_with_tools := fun _ => Returns (Text "Paris.");
     self_tool_node := fun _ => Returns [];
     self_graph_limit_error := recursion_error |}.

(** An endpoint that is down, five iterations. *)
Definition unreachable : OllamaAgent :=
  {| self_model_name := "llama3.2";
     self_max_iterations := 5;
     self_llm_with_tools :=
       fun _ => Raises (Exception "ConnectionError" "connection refused");
     self_tool_node := fun _ => Returns [];
     self_graph_limit_error := recursion_error |}.

(** An endpoint that times out, two iterations. *)
Definition slow : OllamaAgent :=
  {| self_model_name := "llama3.2";
     self_max_iterations := 2;
     self_llm_with_tools := fun _ => Raises (Exception "ReadTimeout" "read timed out");
     self_tool_node := fun _ => Returns [];
     self_graph_limit_error := recursion_error |}.

(** A stand-in for [json.loads] that knows the empty object only. *)
Definition toy_loads (s : string) : list (string * string) + string :=
  if String.eqb s "{}" then inl [] else inr "Expecting value: line 1 column 1 (char 0)".

Definition reply (text : string) : Ollama.ChatResponse :=
  {| Ollama.message :=
       Some {| Ollama.role := Some "assistant";
               Ollama.content := Some (PyStr text) |} |}.

(** An endpoint that ignores the JSON mode. *)
Definition prose_host : Service.Host (list (string * string)) :=
  {| Service.chat := fun _ _ _ _ => Returns (reply "Sure! Here is a story.");
     Service.json_loads := toy_loads |}.

(** An endpoint that answers with the empty object. *)
Definition json_host : Service.Host (list (string * string)) :=
  {| Service.chat := fun _ _ _ _ => Returns (reply "{}");
     Service.json_loads := toy_loads |}.

(** No server behind the host name. *)
Definition down_host : Service.Host (list (string * string)) :=
  {| Service.chat :=
       fun _ _ _ _ => Raises (Exception "ConnectionError" "connection refused");
     Service.json_loads := toy_loads |}.

(** An expression that needs no builtin: it finds the class of the
    interpreter's [quit] among the subclasses of [object] and calls an
    instance of it, which raises [SystemExit]. *)
Definition quitter : string :=
  "[c for c in ().__class__.__base__.__subclasses__() if c.__name__ == 'Quitter'][0]('quit', 'eof')()".

(** A machine without Docker, an interpreter that knows three expressions. *)
Definition laptop : Tools.Host :=
  {| Tools.py_eval := fun expression =>
       if String.eqb expression "2 + 2" then Completes (Returns "4")
       else if String.eqb expression "1 / 0"
       then Completes (Raises (Exception "ZeroDivisionError" "division by zero"))
       else if String.eqb expression quitter
       then Exits (SystemExit "None")
       else Completes (Raises (Exception "SyntaxError" "invalid syntax (<string>, line 1)"));
     Tools.strftime_now := fun _ => "2025-01-31 09:30:00";
     Tools.subprocess_run := fun _ =>
       Raises (Exception "FileNotFoundError"
                 "[Errno 2] No such file or directory: 'docker'") |}.

(** A machine on which [docker ps] lists two containers. *)
Definition docker_box : Tools.Host :=
  {| Tools.py_eval := Tools.py_eval laptop;
     Tools.strftime_now := Tools.strftime_now laptop;
     Tools.subprocess_run := fun _ =>
       Returns {| Tools.returncode := 0;
                  Tools.proc_stdout :=
                    "CONTAINER ID   IMAGE" ++ nl ++ "1f2e   ollama" ++ nl
                      ++ "9a8b   webui" ++ nl |} |}.

(** An endpoint that is down, and one that breaks off a stream. *)
Definition offline : Client.Network :=
  let refused := Exception "ConnectionError" "connection refused" in
  {| Client.requests_get := fun _ _ _ => Raises refused;
     Client.client_list := fun _ => Raises refused;
     Client.client_generate := fun _ _ _ => Raises refused;
     Client.client_generate_stream := fun _ _ _ =>
       ([ {| Ollama.response := Some (PyStr "Docker ") |};
          {| Ollama.response := Some (PyStr "is") |} ],
        Some refused);
     Client.client_chat := fun _ _ _ => Raises refused;
     Client.client_chat_stream := fun _ _ _ => ([], Some refused) |}.

End Examples.

(* ===================================================================== *)
(** * Measures used by the further properties *)
(* ===================================================================== *)

Module Measures.
Import Agent.

(** An upper bound on the node executions that are left before the graph
    reaches [END]: every model call costs one execution of [agent] and, when
    the loop goes on, one of [tools]. *)
Definition steps_needed (self : OllamaAgent) (c : config) : Z :=
  let left := self_max_iterations self - iterations (state_of c) in
  match at_node c with
  | END => 0
  | agent => if 0 <? left then 2 * left - 1 else 1
  | tools => if 0 <? left then 2 * left else 2
  end.

(** [s.count(c)] for a one-character [c] *)
Fixpoint count_char (c : ascii) (s : string) : nat :=
  match s with
  | EmptyString => O
  | String a s' => if Ascii.eqb a c then S (count_char c s') else count_char c s'
  end.

(** The pieces of a stream, one after the other *)
Fixpoint join (pieces : list string) : string :=
  match pieces with
  | [] => EmptyString
  | piece :: pieces' => piece ++ join pieces'
  end.

End Measures.

Module MoreExamples.
Import Agent.

(** An agent that is given no iteration at all. *)
Definition idle : OllamaAgent :=
  {| self_model_name := "llama3.2";
     self_max_iterations := 0;
     self_llm_with_tools := fun _ => Returns (Text "Paris.");
     self_tool_node := fun _ => Returns [];
     self_graph_limit_error := Examples.recursion_error |}.

(** The first turn of the two-iteration agent of the examples: the state
    the tool node is about to see, and the world with the first call. *)
Definition chatty_after_first_turn : config :=
  {| at_node := tools;
     state_of := {| messages := [HumanMessage "What is 2+2?";
                                 AIMessage "Let me calculate that." []];
                    task := "What is 2+2?";
                    result := "";
                    iterations := 1;
                    max_iterations := 2 |} |}.

Definition world_after_first_turn : World :=
  record_call [system_message; HumanMessage "What is 2+2?"] world0.

(** A model that keeps asking for the calculator, thirteen iterations. *)
Definition eager : OllamaAgent :=
  {| self_model_name := "llama3.2";
     self_max_iterations := 13;
     self_llm_with_tools := fun _ => Returns (Text "Let me calculate that.");
     self_tool_node := fun _ => Returns [ToolMessage "Result: 4" "call_1"];
     self_graph_limit_error := Examples.recursion_error |}.

(** A reply of the client whose content was never set *)
Definition reply_without_content : Ollama.ChatResponse :=
  {| Ollama.message :=
       Some {| Ollama.role := Some "assistant"; Ollama.content := Some PyNone |} |}.

(** An endpoint that answers a JSON-mode request without content. *)
Definition mute_host : Service.Host (list (string * string)) :=
  {| Service.chat := fun _ _ _ _ => Returns reply_without_content;
     Service.json_loads := Examples.toy_loads |}.

(** An endpoint whose chat stream has a chunk without content in the
    middle. *)
Definition stuttering : Client.Network :=
  {| Client.requests_get := Client.requests_get Examples.offline;
     Client.client_list := Client.client_list Examples.offline;
     Client.client_generate := Client.client_generate Examples.offline;
     Client.client_generate_stream := Client.client_generate_stream Examples.offline;
     Client.client_chat := fun _ _ _ => Returns reply_without_content;
     Client.client_chat_stream := fun _ _ _ =>
       ([Examples.reply "Hi"; reply_without_content; Examples.reply " there"], None) |}.

End MoreExamples.

(* ===================================================================== *)
(** * langgraph_agent.py: multi-agent collaboration *)
(* ===================================================================== *)

Module Multi.

(** The plain model behind [MultiAgentSystem]: the console, and the prompts
    the endpoint has seen. *)
Record TextWorld : Type := {
  console_of : console;
  prompts : list string
}.

(** [self].  [self_llm earlier prompt] is the outcome of
    [self.llm.invoke(prompt)] when the endpoint has seen [earlier] before, so
    that one prompt may be answered differently each time it is sent. *)
Record MultiAgentSystem : Type := {
  self_llm : list string -> string -> outcome string
}.

Definition llm_invoke (self : MultiAgentSystem) (prompt : string)
  : TextWorld -> outcome string * TextWorld :=
  fun w =>
    (self_llm self (prompts w) prompt,
     {| console_of := console_of w; prompts := (prompts w ++ [prompt])%list |}).

(** [if verbose: print(line) ...] *)
Definition tprints (verbose : bool) (lines : list string) (w : TextWorld) : TextWorld :=
  if verbose
  then {| console_of := fold_left (fun out line => print line out) lines (console_of w);
          prompts := prompts w |}
  else w.

(** The dict [specialist_prompts] *)
Definition specialist_prompts : list (string * string) :=
  [ ("coder", "You are an expert Python programmer. Provide clean, efficient code with explanations.");
    ("analyst", "You are a data analyst. Provide insights, patterns, and recommendations.");
    ("debugger", "You are a debugging expert. Identify issues and provide solutions.");
    ("architect", "You are a system architect. Design scalable, maintainable solutions.") ].

(** [d.get(key, default)] *)
Fixpoint dict_get (key : string) (d : list (string * string)) (default : string) : string :=
  match d with
  | [] => default
  | (k, v) :: d' => if String.eqb k key then v else dict_get key d' default
  end.

(** [d[key] = value]: a key that is there keeps its place, a new one goes
    to the end. *)
Fixpoint dict_set (key value : string) (d : list (string * string))
  : list (string * string) :=
  match d with
  | [] => [(key, value)]
  | (k, v) :: d' =>
      if String.eqb k key then (k, value) :: d' else (k, v) :: dict_set key value d'
  end.

(** The prompt that [run_specialist] sends *)
Definition full_prompt (task specialty : string) : string :=
  let system_prompt :=
    dict_get specialty specialist_prompts "You are a helpful AI assistant." in
  system_prompt ++ nl ++ nl ++ "Task: " ++ task.

Section WithUpper.
(** [s.upper()] *)
Variable str_upper : string -> string.

(** Run a specialist agent *)
Definition run_specialist (self : MultiAgentSystem) (task specialty : string)
  (verbose : bool) : TextWorld -> string * TextWorld :=
  fun w =>
    let w :=
      tprints verbose
        [ nl ++ Colors.BOLD ++ Colors.YELLOW ++ "Specialist: " ++ str_upper specialty
            ++ Colors.END;
          Colors.GREEN ++ "Task:" ++ Colors.END ++ " " ++ task ++ nl ] w in
    match llm_invoke self (full_prompt task specialty) w with
    | (Returns response, w) =>
        let w :=
          tprints verbose
            [ Colors.GREEN ++ "Response:" ++ Colors.END;
              str_repeat "-" 70;
              response;
              str_repeat "-" 70 ] w in
        (response, w)
    | (Raises e, w) => ("Error: " ++ str_exn e, w)
    end.

(** The loop of [collaborate] over the specialists that are left *)
Fixpoint collaborate_loop (self : MultiAgentSystem) (task : string) (verbose : bool)
  (specialists : list string) (results : list (string * string)) (w : TextWorld)
  : list (string * string) * TextWorld :=
  match specialists with
  | [] => (results, w)
  | specialist :: specialists' =>
      let '(answer, w') := run_specialist self task specialist verbose w in
      collaborate_loop self task verbose specialists'
        (dict_set specialist answer results) w'
  end.

(** Run multiple specialists on a task *)
Definition collaborate (self : MultiAgentSystem) (task : string)
  (specialists : list string) (verbose : bool)
  : TextWorld -> list (string * string) * TextWorld :=
  fun w =>
    let w :=
      tprints verbose
        [ nl ++ Colors.BOLD ++ Colors.HEADER ++ str_repeat "=" 70 ++ Colors.END;
          Colors.BOLD ++ Colors.HEADER ++ "Multi-Agent Collaboration" ++ Colors.END;
          Colors.BOLD ++ Colors.HEADER ++ str_repeat "=" 70 ++ Colors.END ] w in
    collaborate_loop self task verbose specialists [] w.

End WithUpper.

(** An endpoint that answers the first request and is gone after it. *)
Definition one_shot : MultiAgentSystem :=
  {| self_llm := fun earlier _ =>
       match earlier with
       | [] => Returns "def is_palindrome(s): return s == s[::-1]"
       | _ => Raises (Exception "ConnectionError" "connection refused")
       end |}.

End Multi.

(* ===================================================================== *)
(** * Properties *)
(* ===================================================================== *)

(** ** Strings *)

Lemma prefix_iff (p s : string) :
  String.prefix p s = true <-> exists rest, s = p ++ rest.
Proof.
  revert s; induction p as [|a p IH]; intros s.
  - split; [intros _; now exists s | intros _; now destruct s].
  - destruct s as [|b s]; simpl.
    + split; [discriminate | intros [rest H]; discriminate].
    + destruct (ascii_dec a b) as [->|Hne].
      * rewrite IH. split; intros [rest H]; exists rest.
        -- now rewrite H.
        -- now injection H.
      * split; [discriminate | intros [rest H]; injection H; intros; congruence].
Qed.

Lemma str_in_iff (needle hay : string) :
  str_in needle hay = true <-> Agent.substring_of needle hay.
Proof.
  unfold Agent.substring_of.
  induction hay as [|c hay IH]; cbn [str_in]; rewrite orb_true_iff, prefix_iff.
  - split.
    + intros [[rest H]|H]; [|discriminate]. now exists "", rest.
    + intros [[|b before] [after H]]; [left; now exists after|discriminate].
  - rewrite IH. split.
    + intros [[rest H]|[before [after H]]].
      * now exists "", rest.
      * exists (String c before), after. simpl. now rewrite H.
    + intros [[|b before] [after H]].
      * left. now exists after.
      * right. exists before, after. simpl in H. now injection H.
Qed.

(** ** The agent loop *)

Section AgentLoop.
Import Agent.
Context {SM : StrMethods} (self : OllamaAgent).

Local Abbreviation N := (self_max_iterations self).
Local Abbreviation llm := (self_llm_with_tools self).

(** *** One agent turn *)

Lemma agent_node_at_limit (st : AgentState) (w : World) :
  N <= iterations st ->
  _agent_node self st w =
    (Returns {| messages := messages st;
                task := task st;
                result := "Maximum iterations reached.";
                iterations := iterations st;
                max_iterations := max_iterations st |}, w).
Proof.
  intros Hge. unfold _agent_node.
  destruct (Z.geb_spec (iterations st) N); [reflexivity | lia].
Qed.

Lemma agent_node_below_limit (st : AgentState) (w : World) :
  iterations st < N ->
  _agent_node self st w =
    (Returns {| messages := [reply_of (llm (system_message :: messages st))];
                task := task st;
                result := result st;
                iterations := iterations st + 1;
                max_iterations := max_iterations st |},
     record_call (system_message :: messages st) w).
Proof.
  intros Hlt. unfold _agent_node, invoke_llm.
  destruct (Z.geb_spec (iterations st) N); [lia |].
  destruct (llm (system_message :: messages st)); reflexivity.
Qed.

(** An agent turn never raises. *)
Lemma agent_node_returns (st : AgentState) (w : World) :
  exists update w', _agent_node self st w = (Returns update, w').
Proof.
  destruct (Z.lt_ge_cases (iterations st) N) as [Hlt|Hge].
  - rewrite (agent_node_below_limit st w Hlt). eauto.
  - rewrite (agent_node_at_limit st w Hge). eauto.
Qed.

Lemma last_message_app (ms : list message) (m : message) :
  last_message (ms ++ [m]) = Returns m.
Proof.
  induction ms as [|a ms IH]; [reflexivity|].
  simpl. rewrite IH. destruct (ms ++ [m])%list eqn:E; [|reflexivity].
  now destruct ms.
Qed.

(** The edge function only ever answers with a key of the path map. *)
Lemma should_continue_keys (st : AgentState) (key : string) :
  _should_continue self st = Returns key -> key = "continue" \/ key = "end".
Proof.
  unfold _should_continue.
  destruct (last_message (messages st)); [|discriminate].
  repeat match goal with |- context [if ?b then _ else _] => destruct b end;
    intros [= <-]; auto.
Qed.

(** *** One node execution: its effect on the counter and on the call log *)

Lemma graph_step_effect (c : config) (w : World) :
  (at_node c = agent /\ iterations (state_of c) < N
   /\ snd (graph_step self c w) = record_call (system_message :: messages (state_of c)) w
   /\ forall c', fst (graph_step self c w) = Returns c' ->
                 iterations (state_of c') = iterations (state_of c) + 1)
  \/ (snd (graph_step self c w) = w
      /\ forall c', fst (graph_step self c w) = Returns c' ->
                    iterations (state_of c') = iterations (state_of c)).
Proof.
  destruct c as [[| |] st]; unfold graph_step; cbn [at_node state_of].
  - destruct (Z.lt_ge_cases (iterations st) N) as [Hlt|Hge].
    + left. rewrite (agent_node_below_limit st w Hlt).
      repeat split; [assumption| |].
      * destruct (_should_continue self _) as [key|e]; [|reflexivity].
        destruct (lookup_path key path_map); reflexivity.
      * intros c'. destruct (_should_continue self _) as [key|e]; [|discriminate].
        destruct (lookup_path key path_map); [|discriminate].
        cbn. intros [= <-]. reflexivity.
    + right. rewrite (agent_node_at_limit st w Hge). split.
      * destruct (_should_continue self _) as [key|e]; [|reflexivity].
        destruct (lookup_path key path_map); reflexivity.
      * intros c'. destruct (_should_continue self _) as [key|e]; [|discriminate].
        destruct (lookup_path key path_map); [|discriminate].
        cbn. intros [= <-]. reflexivity.
  - right. destruct (self_tool_node self st); cbn; split; try reflexivity.
    + intros c' [= <-]. reflexivity.
    + discriminate.
  - right. cbn. split; [reflexivity|]. now intros c' [= <-].
Qed.

Lemma calls_between_refl (w : World) : calls_between w w [].
Proof. unfold calls_between. now rewrite app_nil_r. Qed.

Lemma calls_between_record (w0 w : World) (calls : list (list message))
  (prompt : list message) :
  calls_between w0 w calls ->
  calls_between w0 (record_call prompt w) (calls ++ [prompt]).
Proof.
  unfold calls_between, record_call. cbn. intros ->. now rewrite app_assoc.
Qed.

Lemma calls_between_trans (w0 w1 w2 : World) (a b : list (list message)) :
  calls_between w0 w1 a -> calls_between w1 w2 b -> calls_between w0 w2 (a ++ b).
Proof. unfold calls_between. intros H1 H2. now rewrite H2, H1, app_assoc. Qed.

(** *** The invariant of a run: the counter counts the model calls and
    stays within the budget *)

Lemma reachable_invariant (task_ : string) (w0 : World) (c : config) (w : World) :
  0 <= N ->
  reachable self task_ w0 c w ->
  0 <= iterations (state_of c) <= N
  /\ stdout w = stdout w0
  /\ exists calls, calls_between w0 w calls
                   /\ Z.of_nat (List.length calls) = iterations (state_of c).
Proof.
  intros HN Hreach. induction Hreach as [|c w c' w' Hreach IH Hstep].
  - cbn. repeat split; try lia. exists []. split; [apply calls_between_refl | reflexivity].
  - destruct IH as (Hrange & Hout & calls & Hcalls & Hlen).
    destruct (graph_step_effect c w) as [(_ & Hlt & Hw & Hit)|(Hw & Hit)];
      rewrite Hstep in Hw, Hit; cbn in Hw, Hit; specialize (Hit c' eq_refl); subst w'.
    + repeat split; try lia; [exact Hout|].
      exists (calls ++ [system_message :: messages (state_of c)])%list. split.
      * now apply calls_between_record.
      * rewrite length_app. cbn. lia.
    + repeat split; try lia; [exact Hout|].
      exists calls. split; [assumption | lia].
Qed.

(** *** A whole invocation of the graph *)

Lemma graph_run_calls (limit_error : exn) (limit : nat) (c : config) (w : World) :
  iterations (state_of c) <= N ->
  exists calls,
    calls_between w (snd (graph_run self limit_error limit c w)) calls
    /\ Z.of_nat (List.length calls) <= N - iterations (state_of c).
Proof.
  revert c w. induction limit as [|limit IH]; intros c w Hle.
  - exists []. split; [apply calls_between_refl | cbn; lia].
  - destruct c as [[| |] st]; cbn [graph_run at_node]; cbn [state_of] in Hle |- *;
      try (exists []; split; [apply calls_between_refl | cbn in *; lia]).
    + pose proof (graph_step_effect {| at_node := agent; state_of := st |} w) as Heff.
      destruct (graph_step self {| at_node := agent; state_of := st |} w) as [[c'|e] w'].
      * cbn in Heff. destruct Heff as [(_ & Hlt & -> & Hit)|(-> & Hit)];
          specialize (Hit c' eq_refl).
        -- destruct (IH c' (record_call (system_message :: messages st) w)) as (calls & Hc & Hl);
             [lia|].
           exists ([system_message :: messages st] ++ calls)%list. split.
           ++ eapply calls_between_trans; [|exact Hc].
              unfold calls_between. reflexivity.
           ++ rewrite length_app. cbn in *. lia.
        -- destruct (IH c' w) as (calls & Hc & Hl); [lia|].
           exists calls. split; [assumption | lia].
      * cbn in Heff. destruct Heff as [(_ & Hlt & -> & _)|(-> & _)].
        -- exists [system_message :: messages st]. split.
           ++ unfold calls_between. reflexivity.
           ++ cbn in *. lia.
        -- exists []. split; [apply calls_between_refl | cbn in *; lia].
    + pose proof (graph_step_effect {| at_node := tools; state_of := st |} w) as Heff.
      destruct (graph_step self {| at_node := tools; state_of := st |} w) as [[c'|e] w'].
      * cbn in Heff. destruct Heff as [(Habs & _)|(-> & Hit)]; [discriminate|].
        specialize (Hit c' eq_refl).
        destruct (IH c' w) as (calls & Hc & Hl); [lia|].
        exists calls. split; [assumption | lia].
      * cbn in Heff. destruct Heff as [(Habs & _)|(-> & _)]; [discriminate|].
        exists []. split; [apply calls_between_refl | cbn in *; lia].
Qed.

Lemma llm_calls_say (s : string) (w : World) : llm_calls (say s w) = llm_calls w.
Proof. reflexivity. Qed.

Lemma run_calls (limit : nat) (task_ : string) (verbose : bool) (w : World) :
  llm_calls (snd (run self limit task_ verbose w)) =
  llm_calls (snd (graph_invoke self limit (initial_state self task_) w)).
Proof.
  unfold run.
  set (w1 := prints verbose _ w).
  assert (H1 : llm_calls w1 = llm_calls w) by (subst w1; now destruct verbose).
  assert (Hinv : forall limit_error limit c wa wb, llm_calls wa = llm_calls wb ->
             fst (graph_run self limit_error limit c wa) = fst (graph_run self limit_error limit c wb)
             /\ llm_calls (snd (graph_run self limit_error limit c wa))
                = llm_calls (snd (graph_run self limit_error limit c wb))).
  { clear. intros limit_error. induction limit as [|limit IH]; intros c wa wb Hw.
    - cbn; auto.
    - destruct c as [[| |] st]; cbn [graph_run at_node]; cbn [fst snd]; auto.
      + unfold graph_step; cbn [at_node state_of].
        unfold _agent_node, invoke_llm.
        destruct (iterations st >=? N).
        * destruct (_should_continue self _) as [key|e]; [|cbn; auto].
          destruct (lookup_path key path_map); [|cbn; auto]. now apply IH.
        * destruct (llm (system_message :: messages st));
            (destruct (_should_continue self _) as [key|e0];
             [destruct (lookup_path key path_map); [apply IH|]|]; cbn; now rewrite ?Hw).
      + unfold graph_step; cbn [at_node state_of].
        destruct (self_tool_node self st); [now apply IH | cbn; auto]. }
  destruct (Hinv (self_graph_limit_error self limit) limit
              {| at_node := agent; state_of := initial_state self task_ |} w1 w H1)
    as [Hfst Hsnd].
  unfold graph_invoke in *.
  destruct (graph_run self _ limit _ w1) as [[final|e] w2];
    cbn in Hsnd |- *; rewrite <- Hsnd; now destruct verbose.
Qed.

End AgentLoop.

(** ** The continuation rule *)

Section Continuation.
Import Agent.
Context {SM : StrMethods} (self : OllamaAgent).

Local Abbreviation N := (self_max_iterations self).

(** The test of [_should_continue] on the last message, as one boolean *)
Lemma requests_tool_iff (m : message) :
  has_tool_calls m
  || (is_AIMessage m
      && existsb (fun indicator => str_in indicator (str_lower (content m)))
                 tool_indicators) = true
  <-> requests_tool m.
Proof.
  unfold requests_tool. rewrite orb_true_iff, andb_true_iff, existsb_exists. split.
  - intros [Hcalls|[Hai (kw & Hin & Hsub)]].
    + destruct m as [c|c [|tc tcs]|c|c id]; try discriminate.
      left. exists c, (tc :: tcs). split; [reflexivity | discriminate].
    + destruct m as [c|c tcs|c|c id]; try discriminate.
      right. exists c, tcs. split; [reflexivity|].
      exists kw. split; [exact Hin | now apply str_in_iff].
  - intros [(c & tcs & -> & Hne)|(c & tcs & -> & kw & Hin & Hsub)].
    + left. destruct tcs; [contradiction | reflexivity].
    + right. split; [reflexivity|].
      exists kw. split; [exact Hin | now apply str_in_iff].
Qed.

Lemma should_continue_iff (st : AgentState) (last : message) :
  last_message (messages st) = Returns last ->
  (_should_continue self st = Returns "continue"
   <-> iterations st < N /\ requests_tool last)
  /\ (_should_continue self st = Returns "end"
      <-> ~ (iterations st < N /\ requests_tool last)).
Proof.
  intros Hlast. unfold _should_continue. rewrite Hlast.
  pose proof (requests_tool_iff last) as Hreq.
  destruct (Z.geb_spec (iterations st) N) as [Hge|Hlt].
  - split; split; intros H; try discriminate; try reflexivity; lia.
  - destruct (has_tool_calls last); cbn [orb] in Hreq;
      [|destruct (is_AIMessage last && existsb _ tool_indicators)];
      split; split; intros H; try discriminate; try reflexivity; try tauto;
      try (exfalso; tauto).
    + destruct H as [_ H]. apply Hreq in H. discriminate.
    + intros [_ H']. apply Hreq in H'. discriminate.
Qed.

(** C2.  After an agent turn the graph moves to the tool node exactly when
    the iteration count is below the budget and the latest message requests
    a tool (tool calls on the message, or one of the five keywords inside the
    lowercased text of an assistant message); in every other case it moves
    to END.  The latest message exists after every turn of a run. *)
Theorem continue_iff_below_budget_and_tool_requested
  (st0 : AgentState) (w : World) (update : AgentState) (w' : World) (last : message) :
  _agent_node self st0 w = (Returns update, w') ->
  last_message (messages (apply_update st0 update)) = Returns last ->
  let st := apply_update st0 update in
  let next := fst (graph_step self {| at_node := agent; state_of := st0 |} w) in
  (next = Returns {| at_node := tools; state_of := st |}
   <-> iterations st < N /\ requests_tool last)
  /\ (next = Returns {| at_node := END; state_of := st |}
      <-> ~ (iterations st < N /\ requests_tool last))
  /\ (_should_continue self st = Returns "continue"
      <-> iterations st < N /\ requests_tool last)
  /\ (_should_continue self st = Returns "end"
      <-> ~ (iterations st < N /\ requests_tool last)).
Proof.
  intros Hnode Hlast st next.
  destruct (should_continue_iff st last Hlast) as [Hcont Hend].
  assert (Hnext : next =
            match _should_continue self st with
            | Returns key =>
                match lookup_path key path_map with
                | Returns n => Returns {| at_node := n; state_of := st |}
                | Raises e => Raises e
                end
            | Raises e => Raises e
            end).
  { subst next. unfold graph_step. cbn [at_node state_of]. rewrite Hnode.
    fold st. destruct (_should_continue self st) as [key|e]; [|reflexivity].
    destruct (lookup_path key path_map); reflexivity. }
  refine (conj (conj _ _) (conj (conj _ _) (conj Hcont Hend))).
  - intros H. apply Hcont. rewrite Hnext in H.
    destruct (_should_continue self st) as [key|e] eqn:Hkey; [|discriminate].
    destruct (should_continue_keys self st key Hkey) as [ -> | -> ];
      [reflexivity | discriminate].
  - intros H. apply Hcont in H. rewrite Hnext, H. reflexivity.
  - intros H. apply Hend. rewrite Hnext in H.
    destruct (_should_continue self st) as [key|e] eqn:Hkey; [|discriminate].
    destruct (should_continue_keys self st key Hkey) as [ -> | -> ];
      [discriminate | reflexivity].
  - intros H. apply Hend in H. rewrite Hnext, H. reflexivity.
Qed.

End Continuation.

(** ** The iteration budget *)

Section Budget.
Import Agent.
Context {SM : StrMethods} (self : OllamaAgent).

Local Abbreviation N := (self_max_iterations self).

Lemma last_message_nonempty (ms : list message) :
  ms <> [] -> exists m, last_message ms = Returns m.
Proof.
  intros Hne. destruct (exists_last Hne) as (ms' & m & ->).
  exists m. apply last_message_app.
Qed.

(** Every state of a run holds at least the task, so [messages[-1]] is
    defined whenever the edge function looks at it. *)
Lemma reachable_messages_nonempty (task_ : string) (w0 : World) (c : config) (w : World) :
  reachable self task_ w0 c w -> messages (state_of c) <> [].
Proof.
  induction 1 as [|c w c' w' Hreach IH Hstep]; [discriminate|].
  destruct c as [[| |] st]; unfold graph_step in Hstep; cbn [at_node state_of] in *.
  - destruct (agent_node_returns self st w) as (update & w1 & Hnode).
    rewrite Hnode in Hstep.
    destruct (_should_continue self _) as [key|e]; [|discriminate].
    destruct (lookup_path key path_map); [|discriminate].
    injection Hstep as <- _. cbn. destruct (messages st); [contradiction | discriminate].
  - destruct (self_tool_node self st); [|discriminate].
    injection Hstep as <- _. cbn. destruct (messages st); [contradiction | discriminate].
  - now injection Hstep as <- _.
Qed.

(** C1.  With a budget N >= 0, a run makes at most N model calls, whatever
    the model, the tool node and the recursion limit do; in every state a
    run reaches the counter is at most N and equals the number of model calls
    made so far; and an agent turn calls the model and adds one to the counter
    exactly when the counter is below N, and otherwise returns without a
    call and leaves the counter alone. *)
Theorem model_calls_within_budget :
  0 <= N ->
  (forall (recursion_limit : nat) (task_ : string) (verbose : bool) (w0 : World),
      exists calls,
        calls_between w0 (snd (run self recursion_limit task_ verbose w0)) calls
        /\ Z.of_nat (List.length calls) <= N)
  /\ (forall (task_ : string) (w0 : World) (c : config) (w : World),
         reachable self task_ w0 c w ->
         iterations (state_of c) <= N
         /\ exists calls,
              calls_between w0 w calls
              /\ Z.of_nat (List.length calls) = iterations (state_of c))
  /\ (forall (st : AgentState) (w : World),
         iterations st < N ->
         exists update,
           _agent_node self st w
           = (Returns update, record_call (system_message :: messages st) w)
           /\ iterations update = iterations st + 1)
  /\ (forall (st : AgentState) (w : World),
         iterations st >= N ->
         exists update,
           _agent_node self st w = (Returns update, w)
           /\ iterations update = iterations st).
Proof.
  intros HN. refine (conj _ (conj _ (conj _ _))).
  - intros limit task_ verbose w0.
    destruct (graph_run_calls self (self_graph_limit_error self limit) limit
                {| at_node := agent; state_of := initial_state self task_ |} w0)
      as (calls & Hcalls & Hlen); [cbn; lia|].
    exists calls. split; [|cbn in Hlen; lia].
    unfold calls_between in *. rewrite run_calls. exact Hcalls.
  - intros task_ w0 c w Hreach.
    destruct (reachable_invariant self task_ w0 c w HN Hreach) as (Hrange & _ & Hcalls).
    split; [lia | exact Hcalls].
  - intros st w Hlt. rewrite (agent_node_below_limit self st w Hlt).
    eexists. split; reflexivity.
  - intros st w Hge. rewrite (agent_node_at_limit self st w); [|lia].
    eexists. split; reflexivity.
Qed.

(** With a budget of at least one, the branch of [_agent_node] that writes
    [result] is never taken in a run: the edge function ends the loop first.
    So the key [result] keeps the empty string it starts with. *)
Lemma result_never_written (task_ : string) (w0 : World) (c : config) (w : World) :
  0 < N ->
  reachable self task_ w0 c w ->
  result (state_of c) = ""
  /\ (at_node c <> END -> iterations (state_of c) < N).
Proof.
  intros HN. induction 1 as [|c w c' w' Hreach IH Hstep]; [cbn; split; [reflexivity | lia]|].
  destruct IH as [Hres Hlt].
  destruct c as [[| |] st]; unfold graph_step in Hstep; cbn [at_node state_of] in *.
  - specialize (Hlt ltac:(discriminate)).
    rewrite (agent_node_below_limit self st w Hlt) in Hstep.
    destruct (_should_continue self _) as [key|e] eqn:Hkey; [|discriminate].
    destruct (lookup_path key path_map) as [n|] eqn:Hn; [|discriminate].
    injection Hstep as <- _. cbn [at_node state_of apply_update result iterations].
    split; [exact Hres|]. intros Hnot.
    unfold _should_continue in Hkey. cbn [messages apply_update iterations] in Hkey.
    rewrite last_message_app in Hkey.
    destruct (Z.geb_spec (iterations st + 1) N); [|lia].
    injection Hkey as <-. cbn in Hn. injection Hn as <-. contradiction.
  - specialize (Hlt ltac:(discriminate)).
    destruct (self_tool_node self st); [|discriminate].
    injection Hstep as <- _. cbn. split; [exact Hres | intros _; exact Hlt].
  - injection Hstep as <- _. cbn. split; [exact Hres | intros Habs; contradiction].
Qed.

End Budget.

(** The budget holds for the two-iteration agent of the examples. *)
Lemma model_calls_within_budget_witness :
  0 <= Agent.self_max_iterations Examples.chatty
  /\ exists calls,
       Agent.calls_between world0
         (snd (@Agent.run AsciiStr Examples.chatty 25 "What is 2+2?" true world0)) calls
       /\ Z.of_nat (List.length calls) <= 2.
Proof.
  assert (H : 0 <= Agent.self_max_iterations Examples.chatty) by (cbn; lia).
  split; [exact H|].
  exact (proj1 (@model_calls_within_budget AsciiStr Examples.chatty H)
           25%nat "What is 2+2?" true world0).
Defined.

(** ** Termination of the loop: a final answer, a failing model, the budget *)

Section Termination.
Import Agent.
Context {SM : StrMethods} (self : OllamaAgent).

Local Abbreviation N := (self_max_iterations self).
Local Abbreviation llm := (self_llm_with_tools self).

(** The first turn of a run whose model call is answered without a request
    for a tool. *)
Lemma first_turn_final_answer (task_ : string) (r : response) (w : World) :
  0 < N ->
  llm [system_message; HumanMessage task_] = Returns r ->
  ~ requests_tool (to_ai_message r) ->
  graph_step self {| at_node := agent; state_of := initial_state self task_ |} w
  = (Returns {| at_node := END;
                state_of := {| messages := [HumanMessage task_; to_ai_message r];
                               task := task_;
                               result := "";
                               iterations := 1;
                               max_iterations := N |} |},
     record_call [system_message; HumanMessage task_] w).
Proof.
  intros HN Hllm Hno. unfold graph_step. cbn [at_node state_of].
  rewrite agent_node_below_limit by (cbn; lia).
  cbn [initial_state messages task result iterations max_iterations apply_update app].
  rewrite Hllm. cbn [reply_of Z.add].
  match goal with |- context [_should_continue self ?s] => set (st := s) end.
  destruct (should_continue_iff self st (to_ai_message r) eq_refl) as [_ Hend].
  rewrite (proj2 Hend) by tauto. reflexivity.
Qed.

(** C3.  If the first turn really calls the model (the budget is at least
    one) and the answer carries no tool-call indicator, the first node
    execution leads straight to END: the graph returns after that one turn,
    with the counter at one and exactly one model call made, and [run] hands
    back the text of the answer.  The recursion limit has to leave room for
    the one node execution, as every limit above one does. *)
Theorem no_indicator_one_turn_one_call
  (task_ : string) (r : response) (recursion_limit : nat) (verbose : bool) (w : World) :
  0 < N ->
  (1 < recursion_limit)%nat ->
  llm [system_message; HumanMessage task_] = Returns r ->
  ~ requests_tool (to_ai_message r) ->
  let final := {| messages := [HumanMessage task_; to_ai_message r];
                  task := task_;
                  result := "";
                  iterations := 1;
                  max_iterations := N |} in
  fst (graph_step self {| at_node := agent; state_of := initial_state self task_ |} w)
  = Returns {| at_node := END; state_of := final |}
  /\ graph_invoke self recursion_limit (initial_state self task_) w
     = (Returns final, record_call [system_message; HumanMessage task_] w)
  /\ fst (run self recursion_limit task_ verbose w) = content (to_ai_message r)
  /\ calls_between w (snd (run self recursion_limit task_ verbose w))
       [[system_message; HumanMessage task_]].
Proof.
  intros HN Hlimit Hllm Hno final.
  assert (Hinvoke : forall w1,
             graph_invoke self recursion_limit (initial_state self task_) w1
             = (Returns final, record_call [system_message; HumanMessage task_] w1)).
  { intros w1. unfold graph_invoke.
    destruct recursion_limit as [|[|limit]]; [lia|lia|].
    cbn [graph_run at_node].
    rewrite (first_turn_final_answer task_ r w1 HN Hllm Hno).
    reflexivity. }
  refine (conj _ (conj (Hinvoke w) (conj _ _))).
  - now rewrite (first_turn_final_answer task_ r w HN Hllm Hno).
  - unfold run. rewrite Hinvoke. reflexivity.
  - unfold calls_between. rewrite run_calls, Hinvoke. reflexivity.
Qed.

(** C4, as the code has it.  A model call that raises is caught inside
    [_agent_node]: the turn returns, the message [Error: <text>] is appended
    to the history, the counter goes up by one and the call is on the log.
    The graph then moves on like after any other answer: to the tool node
    exactly when the counter is still below the budget and the lowercased
    error text contains one of the five keywords, and to END otherwise. *)
Theorem model_failure_becomes_inline_error (st : AgentState) (w : World) (e : exn) :
  iterations st < N ->
  llm (system_message :: messages st) = Raises e ->
  let error_message := AIMessage ("Error: " ++ str_exn e) [] in
  let st' := {| messages := (messages st ++ [error_message])%list;
                task := task st;
                result := result st;
                iterations := iterations st + 1;
                max_iterations := max_iterations st |} in
  let w' := record_call (system_message :: messages st) w in
  let goes_on :=
    iterations st + 1 < N
    /\ exists keyword, In keyword tool_indicators
                       /\ substring_of keyword (str_lower ("Error: " ++ str_exn e)) in
  (exists update, _agent_node self st w = (Returns update, w')
                  /\ apply_update st update = st')
  /\ (graph_step self {| at_node := agent; state_of := st |} w
      = (Returns {| at_node := tools; state_of := st' |}, w') <-> goes_on)
  /\ (graph_step self {| at_node := agent; state_of := st |} w
      = (Returns {| at_node := END; state_of := st' |}, w') <-> ~ goes_on).
Proof.
  intros Hlt Hllm error_message st' w' goes_on.
  pose proof (agent_node_below_limit self st w Hlt) as Hnode.
  rewrite Hllm in Hnode. cbn [reply_of] in Hnode. fold error_message in Hnode.
  assert (Hreq : requests_tool error_message <->
                 exists keyword, In keyword tool_indicators
                   /\ substring_of keyword (str_lower ("Error: " ++ str_exn e))).
  { unfold requests_tool, error_message. split.
    - intros [(c & calls & [= <- <-] & Hne)|(c & calls & [= <- <-] & Hkw)];
        [contradiction | exact Hkw].
    - intros Hkw. right. eauto. }
  assert (Hlast : last_message (messages st') = Returns error_message)
    by apply last_message_app.
  destruct (should_continue_iff self st' error_message Hlast) as [Hcont Hend].
  cbn [iterations st'] in Hcont, Hend. rewrite Hreq in Hcont, Hend. fold goes_on in Hcont, Hend.
  assert (Hstep : graph_step self {| at_node := agent; state_of := st |} w =
            match _should_continue self st' with
            | Returns key =>
                match lookup_path key path_map with
                | Returns n => (Returns {| at_node := n; state_of := st' |}, w')
                | Raises e0 => (Raises e0, w')
                end
            | Raises e0 => (Raises e0, w')
            end).
  { unfold graph_step. cbn [at_node state_of]. rewrite Hnode. reflexivity. }
  refine (conj _ (conj (conj _ _) (conj _ _))).
  - eexists. split; [exact Hnode | reflexivity].
  - intros H. apply Hcont. rewrite Hstep in H.
    destruct (_should_continue self st') as [key|e0] eqn:Hkey; [|discriminate].
    destruct (should_continue_keys self st' key Hkey) as [ -> | -> ];
      [reflexivity | discriminate].
  - intros H. apply Hcont in H. rewrite Hstep, H. reflexivity.
  - intros H. apply Hend. rewrite Hstep in H.
    destruct (_should_continue self st') as [key|e0] eqn:Hkey; [|discriminate].
    destruct (should_continue_keys self st' key Hkey) as [ -> | -> ];
      [discriminate | reflexivity].
  - intros H. apply Hend in H. rewrite Hstep, H. reflexivity.
Qed.

End Termination.

(** ** The agent loop on the example agents *)

Section AgentExamples.
Import Agent Examples.
#[local] Existing Instance AsciiStr.

(** The two-iteration agent: call, tool, call, then the edge function ends
    the loop because the counter has reached the budget. *)
Example chatty_run :
  graph_invoke chatty 25 (initial_state chatty "What is 2+2?") world0
  = (Returns {| messages := [HumanMessage "What is 2+2?";
                             AIMessage "Let me calculate that." [];
                             ToolMessage "Result: 4" "call_1";
                             AIMessage "Let me calculate that." []];
                task := "What is 2+2?";
                result := "";
                iterations := 2;
                max_iterations := 2 |},
     {| stdout := [];
        llm_calls := [[system_message; HumanMessage "What is 2+2?"];
                      [system_message; HumanMessage "What is 2+2?";
                       AIMessage "Let me calculate that." [];
                       ToolMessage "Result: 4" "call_1"]] |}).
Proof. vm_compute. reflexivity. Qed.

(** A budget of zero: the limit branch of [_agent_node] runs, the update it
    returns carries the old messages, which the reducer appends once more,
    and [run] hands back the task. *)
Example zero_budget_run :
  let self := {| self_model_name := "llama3.2";
                 self_max_iterations := 0;
                 self_llm_with_tools := fun _ => Returns (Text "Paris.");
                 self_tool_node := fun _ => Returns [];
                 self_graph_limit_error := recursion_error |} in
  graph_invoke self 25 (initial_state self "Capital of France?") world0
  = (Returns {| messages := [HumanMessage "Capital of France?";
                             HumanMessage "Capital of France?"];
                task := "Capital of France?";
                result := "Maximum iterations reached.";
                iterations := 0;
                max_iterations := 0 |}, world0)
  /\ fst (run self 25 "Capital of France?" false world0) = "Capital of France?".
Proof. vm_compute. split; reflexivity. Qed.

(** The run of the two-iteration agent takes three node executions.  At a
    recursion limit of three [graph.invoke] gives up, and [run] turns that
    into its error text; at a limit of four the run comes through. *)
Example recursion_limit_run :
  fst (run chatty 3 "What is 2+2?" false world0)
  = "Error running agent: Recursion limit of 3 reached without hitting a stop condition. You can increase the limit by setting the `recursion_limit` config key."
  /\ fst (run chatty 4 "What is 2+2?" false world0) = "Let me calculate that.".
Proof. vm_compute. split; reflexivity. Qed.

End AgentExamples.

(** The continuation rule on the first turn of the two-iteration agent:
    the answer contains [calculate] and one iteration is left. *)
Lemma continue_iff_below_budget_and_tool_requested_witness :
  let self := Examples.chatty in
  let st0 := Agent.initial_state self "What is 2+2?" in
  let reply := AIMessage "Let me calculate that." [] in
  let update := {| Agent.messages := [reply];
                   Agent.task := "What is 2+2?";
                   Agent.result := "";
                   Agent.iterations := 1;
                   Agent.max_iterations := 2 |} in
  let w' := Agent.record_call [Agent.system_message; HumanMessage "What is 2+2?"] world0 in
  let st := Agent.apply_update st0 update in
  Agent._agent_node self st0 world0 = (Returns update, w')
  /\ Agent.last_message (Agent.messages st) = Returns reply
  /\ (fst (@Agent.graph_step AsciiStr self
             {| Agent.at_node := Agent.agent; Agent.state_of := st0 |} world0)
      = Returns {| Agent.at_node := Agent.tools; Agent.state_of := st |}
      <-> Agent.iterations st < 2 /\ @Agent.requests_tool AsciiStr reply).
Proof.
  intros self st0 reply update w' st.
  refine (conj eq_refl (conj eq_refl _)).
  exact (proj1 (@continue_iff_below_budget_and_tool_requested AsciiStr self
                  st0 world0 update w' reply eq_refl eq_refl)).
Defined.

(** A direct answer ends the run of the five-iteration agent after one
    turn and one call. *)
Lemma no_indicator_one_turn_one_call_witness :
  let self := Examples.direct in
  let task_ := "Capital of France?" in
  0 < Agent.self_max_iterations self
  /\ (1 < 25)%nat
  /\ Agent.self_llm_with_tools self [Agent.system_message; HumanMessage task_]
     = Returns (Agent.Text "Paris.")
  /\ @Agent.graph_invoke AsciiStr self 25 (Agent.initial_state self task_) world0
     = (Returns {| Agent.messages := [HumanMessage task_; AIMessage "Paris." []];
                   Agent.task := task_;
                   Agent.result := "";
                   Agent.iterations := 1;
                   Agent.max_iterations := 5 |},
        Agent.record_call [Agent.system_message; HumanMessage task_] world0).
Proof.
  intros self task_.
  assert (HN : 0 < Agent.self_max_iterations self) by (cbn; lia).
  assert (Hlimit : (1 < 25)%nat) by lia.
  assert (Hno : ~ @Agent.requests_tool AsciiStr (Agent.to_ai_message (Agent.Text "Paris."))).
  { intros Hreq. apply (@requests_tool_iff AsciiStr) in Hreq. vm_compute in Hreq.
    discriminate. }
  refine (conj HN (conj Hlimit (conj eq_refl _))).
  exact (proj1 (proj2 (@no_indicator_one_turn_one_call AsciiStr self task_
                         (Agent.Text "Paris.") 25%nat false world0 HN Hlimit eq_refl Hno))).
Defined.

(** A time-out on the first call of the two-iteration agent: the error text
    contains [time], so the graph moves to the tool node. *)
Lemma model_failure_becomes_inline_error_witness :
  let self := Examples.slow in
  let st := Agent.initial_state self "What is 2+2?" in
  let e := Exception "ReadTimeout" "read timed out" in
  Agent.iterations st < Agent.self_max_iterations self
  /\ Agent.self_llm_with_tools self (Agent.system_message :: Agent.messages st) = Raises e
  /\ exists update,
       Agent._agent_node self st world0
       = (Returns update,
          Agent.record_call (Agent.system_message :: Agent.messages st) world0)
       /\ Agent.apply_update st update
          = {| Agent.messages := [HumanMessage "What is 2+2?";
                                  AIMessage "Error: read timed out" []];
               Agent.task := "What is 2+2?";
               Agent.result := "";
               Agent.iterations := 1;
               Agent.max_iterations := 2 |}.
Proof.
  intros self st e.
  assert (Hlt : Agent.iterations st < Agent.self_max_iterations self) by (cbn; lia).
  refine (conj Hlt (conj eq_refl _)).
  exact (proj1 (@model_failure_becomes_inline_error AsciiStr self st world0 e Hlt eq_refl)).
Defined.

(** C4, as the claim words it, fails: the model call of the five-iteration
    agent raises [connection refused], no keyword occurs in the error text,
    and the first node execution leads to END.  The run is over after one of
    five iterations, with the error text as its answer. *)
Lemma model_failure_ends_loop_before_budget :
  let self := Examples.unreachable in
  let st0 := Agent.initial_state self "Capital of France?" in
  let final := {| Agent.messages := [HumanMessage "Capital of France?";
                                     AIMessage "Error: connection refused" []];
                  Agent.task := "Capital of France?";
                  Agent.result := "";
                  Agent.iterations := 1;
                  Agent.max_iterations := 5 |} in
  Agent.self_llm_with_tools self (Agent.system_message :: Agent.messages st0)
  = Raises (Exception "ConnectionError" "connection refused")
  /\ fst (@Agent.graph_step AsciiStr self
            {| Agent.at_node := Agent.agent; Agent.state_of := st0 |} world0)
     = Returns {| Agent.at_node := Agent.END; Agent.state_of := final |}
  /\ fst (@Agent.graph_invoke AsciiStr self 25 st0 world0) = Returns final
  /\ Agent.iterations final < Agent.self_max_iterations self
  /\ List.length (llm_calls (snd (@Agent.graph_invoke AsciiStr self 25 st0 world0))) = 1%nat
  /\ fst (@Agent.run AsciiStr self 25 "Capital of France?" false world0)
     = "Error: connection refused".
Proof. vm_compute. repeat split; reflexivity. Qed.

(** C5 on the two-iteration agent whose model keeps asking for a tool: the
    run ends with the counter at the budget, the key [result] still holds the
    empty string, and [run] hands back the last answer of the model; the
    text [Maximum iterations reached.] appears nowhere. *)
Lemma budget_exhaustion_goes_unreported :
  let self := Examples.chatty in
  let out := @Agent.graph_invoke AsciiStr self 25
               (Agent.initial_state self "What is 2+2?") world0 in
  exists final w,
    out = (Returns final, w)
    /\ Agent.iterations final = Agent.self_max_iterations self
    /\ Agent.result final = ""
    /\ Agent.result final <> "Maximum iterations reached."
    /\ @Agent.run AsciiStr self 25 "What is 2+2?" false world0
       = ("Let me calculate that.", w).
Proof.
  intros self out. subst out self. rewrite chatty_run.
  do 2 eexists. split; [reflexivity|].
  vm_compute. repeat split; try reflexivity. discriminate.
Qed.

(** ** The tools *)

Section ToolProperties.
Import Tools.
Context {SM : StrMethods} (host : Host).

(** [calculate] never changes the world, however the evaluation ends. *)
Lemma calculate_keeps_world (expression : string) (w : World) :
  snd (calculate host expression w) = w.
Proof.
  unfold calculate. destruct (py_eval host expression) as [[value|e]|x|]; reflexivity.
Qed.

Lemma check_docker_status_returns (w : World) :
  exists s, check_docker_status host w = (Returns s, w).
Proof.
  unfold check_docker_status.
  destruct (subprocess_run host _) as [p|e]; [|eauto].
  destruct (returncode p =? 0); eauto.
Qed.

Lemma search_documentation_returns (query : string) (w : World) :
  exists s, search_documentation query w = (Returns s, w).
Proof.
  unfold search_documentation.
  destruct (find _ docs) as [[key value]|]; eauto.
Qed.

(** No tool of the registry touches the console or the call log. *)
Lemma tools_keep_world : Forall keeps_world (tools host).
Proof.
  unfold tools. repeat apply Forall_cons; [ .. | apply Forall_nil];
    unfold keeps_world, completes; cbn [func]; intros.
  - apply calculate_keeps_world.
  - reflexivity.
  - destruct (check_docker_status_returns w) as [s ->]. reflexivity.
  - destruct (search_documentation_returns a w) as [s ->]. reflexivity.
  - reflexivity.
Qed.



(** C10.  [write_to_memory] returns its confirmation text and nothing else
    happens: the world after the call is the world before it, field by
    field, so nothing that is read from the world afterwards depends on the
    value that was passed. *)
Theorem write_to_memory_stores_nothing (key value : string) (w : World) :
  write_to_memory key value w
  = (Returns ("Stored '" ++ key ++ "' = '" ++ value ++ "' in memory."), w)
  /\ stdout (snd (write_to_memory key value w)) = stdout w
  /\ llm_calls (snd (write_to_memory key value w)) = llm_calls w
  /\ (forall (A : Type) (retrieve : World -> A) (other : string),
         retrieve (snd (write_to_memory key value w))
         = retrieve (snd (write_to_memory key other w)))
  /\ (forall (A : Type) (retrieve : World -> A),
         retrieve (snd (write_to_memory key value w)) = retrieve w).
Proof. repeat split. Qed.

End ToolProperties.

Section ToolExamples.
Import Tools Examples.
#[local] Existing Instance AsciiStr.

Example calculate_ok :
  fst (calculate laptop "2 + 2" world0) = Completes (Returns "Result: 4").
Proof. reflexivity. Qed.

Example calculate_error :
  fst (calculate laptop "1 / 0" world0)
  = Completes (Returns "Error calculating: division by zero").
Proof. reflexivity. Qed.

Example docker_missing :
  fst (check_docker_status laptop world0)
  = Returns "Cannot check Docker status: [Errno 2] No such file or directory: 'docker'".
Proof. reflexivity. Qed.

Example docker_two_containers :
  fst (check_docker_status docker_box world0)
  = Returns "Docker is running. 2 container(s) active.".
Proof. vm_compute. reflexivity. Qed.

Example search_hit :
  fst (search_documentation "How do I use Ollama with Docker?" world0)
  = Returns "Documentation for 'docker': Docker is a platform for developing, shipping, and running applications in containers. Key commands: docker run, docker build, docker ps.".
Proof. vm_compute. reflexivity. Qed.

Example search_miss :
  fst (search_documentation "kubernetes" world0)
  = Returns "No documentation found for that query. Try: docker, ollama, langgraph, or zscaler.".
Proof. vm_compute. reflexivity. Qed.

Example memory_write :
  write_to_memory "city" "Paris" world0
  = (Returns "Stored 'city' = 'Paris' in memory.", world0).
Proof. reflexivity. Qed.

End ToolExamples.


(** ** The structured request *)

Section StructuredRequest.
Import Ollama Service.
Context {JSON : Type} (h : Host JSON).

(** A failure of the request itself is not caught. *)
Lemma ask_propagates_client_failure
  (model prompt : string) (system_message : option string) (host : string)
  (out : console) (e : exn) :
  chat h host model (chat_messages system_message prompt) "json" = Raises e ->
  ask_ollama_structured h model prompt system_message host out = (Raises e, out).
Proof. intros He. unfold ask_ollama_structured. now rewrite He. Qed.

(** A reply whose content is [None] is handed to the decoder as it is, and
    the decoder raises [TypeError]; no warning is printed. *)
Lemma ask_raises_type_error_on_none
  (model prompt : string) (system_message : option string) (host : string)
  (out : console) (response_raw : ChatResponse) :
  chat h host model (chat_messages system_message prompt) "json" = Returns response_raw ->
  get_message_content response_raw "{}" = PyNone ->
  ask_ollama_structured h model prompt system_message host out
  = (Raises loads_type_error, out).
Proof. intros Hchat Hnone. unfold ask_ollama_structured. now rewrite Hchat, Hnone. Qed.


End StructuredRequest.

Section StructuredExamples.
Import Service Examples.

Example structured_ok :
  ask_ollama_structured json_host "llama3" "List three colours." None default_host []
  = (Returns [], []).
Proof. reflexivity. Qed.

End StructuredExamples.


(** ** The client wrapper *)

Section ClientWrapper.
Import Ollama Client.
Variable net : Network.

(** C7.  The probe always returns a boolean and never raises: [True]
    exactly when the version request comes back with status 200, and [False]
    when the request raises, in which case the error is printed. *)
Theorem check_connection_returns_bool (self : OllamaClient) (out : console) :
  let probe := requests_get net (host self ++ "/api/version") (verify_ssl self) 5 in
  exists (b : bool) (out' : console),
    check_connection net self out = (Returns b, out')
    /\ (b = true <-> exists response, probe = Returns response
                                      /\ status_code response = 200)
    /\ (forall e, probe = Raises e ->
                  b = false /\ out' = print ("Connection error: " ++ str_exn e) out)
    /\ (forall response, probe = Returns response -> out' = out).
Proof.
  intros probe. unfold check_connection. fold probe.
  destruct probe as [response|e].
  - exists (status_code response =? 200), out.
    refine (conj eq_refl (conj (conj _ _) (conj _ _))).
    + intros H. exists response. split; [reflexivity | now apply Z.eqb_eq].
    + intros (r & [= <-] & H). now apply Z.eqb_eq.
    + discriminate.
    + reflexivity.
  - exists false, (print ("Connection error: " ++ str_exn e) out).
    refine (conj eq_refl (conj (conj _ _) (conj _ _))).
    + discriminate.
    + intros (r & H & _). discriminate.
    + intros e' [= <-]. now split.
    + discriminate.
Qed.

Lemma list_models_returns (self : OllamaClient) (out : console) :
  exists ms out', list_models net self out = (Returns ms, out').
Proof. unfold list_models. destruct (client_list net (host self)); eauto. Qed.

Lemma generate_returns (self : OllamaClient) (model prompt : string) (stream_ : bool)
  (out : console) :
  exists r out', generate net self model prompt stream_ out = (Returns r, out').
Proof.
  unfold generate. destruct stream_.
  - destruct (client_generate_stream net _ _ _) as [chunks [e|]];
      destruct (stream_loop _ chunks _ _) as [[full|e'] out1]; eauto.
  - destruct (client_generate net _ _ _); eauto.
Qed.

Lemma chat_returns (self : OllamaClient) (model : string) (messages : list MessageDict)
  (stream_ : bool) (out : console) :
  exists r out', chat net self model messages stream_ out = (Returns r, out').
Proof.
  unfold chat. destruct stream_.
  - destruct (client_chat_stream net _ _ _) as [chunks [e|]];
      destruct (stream_loop _ chunks _ _) as [[full|e'] out1]; eauto.
  - destruct (client_chat net _ _ _); eauto.
Qed.

(** C8, as the code has it.  The methods of [OllamaClient] never raise: a
    failure of the library call is printed and turned into [False]
    ([check_connection]), the empty list ([list_models]) or [None]
    ([generate], [chat]; when a stream breaks off after some chunks, the last
    line printed is an error line and the result is [None]).
    [ask_ollama_structured] is different: a failure of its request is raised
    to the caller as it is, a reply that does not decode is raised as the
    decoder's [JSONDecodeError] after a warning, and a reply whose content is
    [None] is raised as the decoder's [TypeError]. *)
Theorem client_failures_become_empty_results
  (self : OllamaClient) (model prompt : string) (messages : list MessageDict)
  (out : console) (e : exn) :
  (forall stream_,
      (exists b out', check_connection net self out = (Returns b, out'))
      /\ (exists ms out', list_models net self out = (Returns ms, out'))
      /\ (exists r out', generate net self model prompt stream_ out = (Returns r, out'))
      /\ (exists r out', chat net self model messages stream_ out = (Returns r, out')))
  /\ (requests_get net (host self ++ "/api/version") (verify_ssl self) 5 = Raises e ->
      check_connection net self out
      = (Returns false, print ("Connection error: " ++ str_exn e) out))
  /\ (client_list net (host self) = Raises e ->
      list_models net self out
      = (Returns [], print ("Error listing models: " ++ str_exn e) out))
  /\ (client_generate net (host self) model prompt = Raises e ->
      generate net self model prompt false out
      = (Returns None, print ("Error generating response: " ++ str_exn e) out))
  /\ (forall chunks,
         client_generate_stream net (host self) model prompt = (chunks, Some e) ->
         exists e' out',
           generate net self model prompt true out
           = (Returns None, print ("Error generating response: " ++ str_exn e') out'))
  /\ (client_chat net (host self) model messages = Raises e ->
      chat net self model messages false out
      = (Returns None, print ("Error in chat: " ++ str_exn e) out))
  /\ (forall chunks,
         client_chat_stream net (host self) model messages = (chunks, Some e) ->
         exists e' out',
           chat net self model messages true out
           = (Returns None, print ("Error in chat: " ++ str_exn e') out'))
  /\ (forall (JSON : Type) (h : Service.Host JSON) (system_message : option string),
         Service.chat h (host self) model
           (Service.chat_messages system_message prompt) "json" = Raises e ->
         Service.ask_ollama_structured h model prompt system_message (host self) out
         = (Raises e, out))
  /\ (forall (JSON : Type) (h : Service.Host JSON) (system_message : option string)
         (response_raw : ChatResponse) (response_content msg : string),
         Service.chat h (host self) model
           (Service.chat_messages system_message prompt) "json" = Returns response_raw ->
         get_message_content response_raw "{}" = PyStr response_content ->
         Service.json_loads h response_content = inr msg ->
         Service.ask_ollama_structured h model prompt system_message (host self) out
         = (Raises (JSONDecodeError msg),
            print ("Warning: Model response was not valid JSON. Raw response: "
                     ++ response_content) out))
  /\ (forall (JSON : Type) (h : Service.Host JSON) (system_message : option string)
         (response_raw : ChatResponse),
         Service.chat h (host self) model
           (Service.chat_messages system_message prompt) "json" = Returns response_raw ->
         get_message_content response_raw "{}" = PyNone ->
         Service.ask_ollama_structured h model prompt system_message (host self) out
         = (Raises loads_type_error, out)).
Proof.
  refine (conj _ (conj _ (conj _ (conj _ (conj _ (conj _ (conj _ (conj _ (conj _ _))))))))).
  - intros stream_.
    split; [unfold check_connection; destruct (requests_get net _ _ _); eauto|].
    split; [apply list_models_returns|].
    split; [apply generate_returns | apply chat_returns].
  - intros He. unfold check_connection. now rewrite He.
  - intros He. unfold list_models. now rewrite He.
  - intros He. unfold generate. now rewrite He.
  - intros chunks He. unfold generate. rewrite He.
    destruct (stream_loop _ chunks _ _) as [[full|e'] out1]; eauto.
  - intros He. unfold chat. now rewrite He.
  - intros chunks He. unfold chat. rewrite He.
    destruct (stream_loop _ chunks _ _) as [[full|e'] out1]; eauto.
  - intros JSON h system_message He. now apply ask_propagates_client_failure.
  - intros JSON h system_message response_raw response_content msg Hchat Hcontent Hmsg.
    unfold Service.ask_ollama_structured. now rewrite Hchat, Hcontent, Hmsg.
  - intros JSON h system_message response_raw Hchat Hnone.
    unfold Service.ask_ollama_structured. now rewrite Hchat, Hnone.
Qed.

End ClientWrapper.

Section ClientExamples.
Import Client Examples.

Example probe_offline :
  check_connection offline (__init__ [] "http://localhost:11434") []
  = (Returns false, [("Connection error: connection refused" ++ nl)%string]).
Proof. reflexivity. Qed.

Example generate_stream_breaks_off :
  generate offline (__init__ [] "http://localhost:11434") "llama3.2" "What is Docker?" true []
  = (Returns None,
     [(nl ++ "llama3.2: ")%string; "Docker "; "is";
      ("Error generating response: connection refused" ++ nl)%string]).
Proof. vm_compute. reflexivity. Qed.

End ClientExamples.

(** C8, as the claim words it, fails on [ask_ollama_structured]: a reply
    that is not JSON is raised to the caller after the warning, and a
    request that fails is raised as it is; neither becomes an empty result
    or an error text. *)
Lemma structured_request_raises_to_caller :
  Service.ask_ollama_structured Examples.prose_host "llama3" "Tell me a story." None
    Service.default_host []
  = (Raises (JSONDecodeError "Expecting value: line 1 column 1 (char 0)"),
     [("Warning: Model response was not valid JSON. Raw response: Sure! Here is a story."
         ++ nl)%string])
  /\ Service.ask_ollama_structured Examples.down_host "llama3" "Tell me a story." None
       Service.default_host []
     = (Raises (Exception "ConnectionError" "connection refused"), []).
Proof. split; reflexivity. Qed.

(* ===================================================================== *)
(** * Further properties of the agent loop *)
(* ===================================================================== *)

Section RunStructure.
Import Agent Measures.
Context {SM : StrMethods} (self : OllamaAgent).

Local Abbreviation N := (self_max_iterations self).
Local Abbreviation llm := (self_llm_with_tools self).

(** *** What one node execution does to the state *)

(** After [agent] the graph is at [END], or at [tools] with iterations left. *)
Lemma agent_step_target (st : AgentState) (w : World) (c' : config) (w' : World) :
  graph_step self {| at_node := agent; state_of := st |} w = (Returns c', w') ->
  at_node c' = END \/ (at_node c' = tools /\ iterations (state_of c') < N).
Proof.
  unfold graph_step. cbn [at_node state_of].
  destruct (agent_node_returns self st w) as (update & w1 & ->).
  destruct (_should_continue self _) as [key|e] eqn:Hkey; [|discriminate].
  destruct (should_continue_keys self _ key Hkey) as [ -> | -> ]; cbn;
    intros [= <- _]; [right | left; reflexivity].
  split; [reflexivity|]. cbn [state_of].
  unfold _should_continue in Hkey.
  destruct (last_message _); [|discriminate].
  destruct (Z.geb_spec (iterations (apply_update st update)) N); [discriminate | assumption].
Qed.

(** A node execution only ever appends to the history, and leaves the keys
    [task] and [max_iterations] alone. *)
Lemma graph_step_extends (c : config) (w : World) (c' : config) (w' : World) :
  graph_step self c w = (Returns c', w') ->
  (exists more, messages (state_of c') = (messages (state_of c) ++ more)%list)
  /\ task (state_of c') = task (state_of c)
  /\ max_iterations (state_of c') = max_iterations (state_of c).
Proof.
  destruct c as [[| |] st]; unfold graph_step; cbn [at_node state_of].
  - destruct (Z.lt_ge_cases (iterations st) N) as [Hlt|Hge];
      [rewrite (agent_node_below_limit self st w Hlt)
      |rewrite (agent_node_at_limit self st w Hge)];
      (destruct (_should_continue self _) as [key|e]; [|discriminate]);
      (destruct (lookup_path key path_map); [|discriminate]);
      intros [= <- _]; cbn; eauto.
  - destruct (self_tool_node self st) as [ms|e]; [|discriminate].
    intros [= <- _]. cbn. eauto.
  - intros [= <- _]. cbn. split; [|auto]. exists []. now rewrite app_nil_r.
Qed.

(** With a history that is not empty, a node execution raises only what the
    tool node raises. *)
Lemma graph_step_returns (c : config) (w : World) :
  messages (state_of c) <> [] ->
  (forall e, self_tool_node self (state_of c) <> Raises e) ->
  exists c' w', graph_step self c w = (Returns c', w').
Proof.
  intros Hne Htool.
  destruct c as [[| |] st]; unfold graph_step; cbn [at_node state_of] in *.
  - destruct (agent_node_returns self st w) as (update & w1 & ->).
    destruct (last_message_nonempty (messages (apply_update st update))) as [m Hm].
    { cbn. destruct (messages st); [contradiction | discriminate]. }
    unfold _should_continue. rewrite Hm.
    repeat match goal with |- context [if ?b then _ else _] => destruct b end;
      cbn; eauto.
  - destruct (self_tool_node self st) as [ms|e]; [eauto | now destruct (Htool e)].
  - eauto.
Qed.

(** *** The history of a run *)

Lemma reachable_history (task_ : string) (w0 : World) (c : config) (w : World) :
  reachable self task_ w0 c w ->
  (exists rest, messages (state_of c) = HumanMessage task_ :: rest)
  /\ task (state_of c) = task_
  /\ max_iterations (state_of c) = N.
Proof.
  induction 1 as [|c w c' w' Hreach IH Hstep].
  - cbn. eauto.
  - destruct IH as ((rest & Hrest) & Htask & Hmax).
    destruct (graph_step_extends c w c' w' Hstep) as ((more & Hmore) & Ht & Hm).
    refine (conj _ (conj _ _)); [|congruence|congruence].
    exists (rest ++ more)%list. now rewrite Hmore, Hrest.
Qed.

(** X1.  The history of a run is append-only: every state a run reaches
    still starts with the user's task, every node execution leaves the
    messages that were there in place and only adds behind them, and no node
    changes the keys [task] and [max_iterations]. *)
Theorem history_is_append_only (task_ : string) (w0 : World) (c : config) (w : World) :
  reachable self task_ w0 c w ->
  (exists rest, messages (state_of c) = HumanMessage task_ :: rest)
  /\ task (state_of c) = task_
  /\ max_iterations (state_of c) = N
  /\ (forall c' w',
         graph_step self c w = (Returns c', w') ->
         exists more, messages (state_of c') = (messages (state_of c) ++ more)%list).
Proof.
  intros Hreach.
  destruct (reachable_history task_ w0 c w Hreach) as (Hfirst & Htask & Hmax).
  refine (conj Hfirst (conj Htask (conj Hmax _))).
  intros c' w' Hstep. exact (proj1 (graph_step_extends c w c' w' Hstep)).
Qed.

(** *** The prompts of a run *)

(** A node execution either makes one model call, with the whole history
    as the prompt, and appends the reply to it; or it makes none. *)
Lemma graph_step_call (c : config) (w : World) (c' : config) (w' : World) :
  graph_step self c w = (Returns c', w') ->
  (at_node c = agent
   /\ iterations (state_of c) < N
   /\ w' = record_call (system_message :: messages (state_of c)) w
   /\ messages (state_of c')
      = (messages (state_of c)
           ++ [reply_of (llm (system_message :: messages (state_of c)))])%list)
  \/ (w' = w
      /\ exists more, messages (state_of c') = (messages (state_of c) ++ more)%list).
Proof.
  destruct c as [[| |] st]; unfold graph_step; cbn [at_node state_of].
  - destruct (Z.lt_ge_cases (iterations st) N) as [Hlt|Hge];
      [rewrite (agent_node_below_limit self st w Hlt)
      |rewrite (agent_node_at_limit self st w Hge)];
      (destruct (_should_continue self _) as [key|e]; [|discriminate]);
      (destruct (lookup_path key path_map); [|discriminate]);
      intros [= <- <-]; cbn; [left | right]; eauto.
  - destruct (self_tool_node self st) as [ms|e]; [|discriminate].
    intros [= <- <-]. cbn. eauto.
  - intros [= <- <-]. right. split; [reflexivity|]. exists []. now rewrite app_nil_r.
Qed.

Lemma app_cons_neq {A : Type} (h : list A) (x : A) (more : list A) :
  h <> (h ++ x :: more)%list.
Proof.
  intros Heq. apply (f_equal (@List.length A)) in Heq.
  rewrite length_app in Heq. cbn in Heq. lia.
Qed.

(** X2.  Every prompt of a run is the system message followed by the whole
    history at the time of the call, which starts with the task; the reply to
    it is the message the history holds right behind that part, and all that
    comes later comes behind the reply.  So the model never sees the same
    prompt twice in one run, and never sees less than it saw before.  The
    next call, when a node execution makes one, is made with the system
    message and the whole history of the state the node sees. *)
Theorem prompts_grow_strictly (task_ : string) (w0 : World) (c : config) (w : World) :
  reachable self task_ w0 c w ->
  (exists calls,
      calls_between w0 w calls
      /\ NoDup calls
      /\ forall prompt, In prompt calls ->
           exists history later,
             prompt = system_message :: history
             /\ (exists tail, history = HumanMessage task_ :: tail)
             /\ messages (state_of c)
                = (history ++ reply_of (llm prompt) :: later)%list)
  /\ (forall c' w',
         graph_step self c w = (Returns c', w') ->
         llm_calls w' = llm_calls w
         \/ llm_calls w'
            = (llm_calls w ++ [system_message :: messages (state_of c)])%list).
Proof.
  intros Hreach. split.
  - induction Hreach as [|c w c' w' Hreach IH Hstep].
    + exists []. split; [apply calls_between_refl|]. split; [constructor | contradiction].
    + destruct IH as (calls & Hcalls & Hnodup & Hall).
      destruct (graph_step_call c w c' w' Hstep)
        as [(_ & _ & -> & Hmsg)|(-> & more & Hmsg)].
      * exists (calls ++ [system_message :: messages (state_of c)])%list.
        split; [now apply calls_between_record|]. split.
        -- apply NoDup_app; [assumption | repeat constructor; intros [] |].
           intros prompt Hin [<-|[]].
           destruct (Hall _ Hin) as (history & later & Hp & _ & Heq).
           injection Hp as Hp. rewrite <- Hp in Heq.
           exact (app_cons_neq _ _ _ Heq).
        -- intros prompt Hin. apply in_app_or in Hin. destruct Hin as [Hin|[<-|[]]].
           ++ destruct (Hall _ Hin) as (history & later & Hp & Hhead & Heq).
              exists history, (later ++ [reply_of (llm (system_message :: messages (state_of c)))])%list.
              refine (conj Hp (conj Hhead _)).
              rewrite Hmsg, Heq, <- app_assoc. reflexivity.
           ++ destruct (reachable_history task_ w0 c w Hreach) as (Hhead & _).
              exists (messages (state_of c)), [].
              refine (conj eq_refl (conj Hhead _)). exact Hmsg.
      * exists calls. split; [assumption|]. split; [assumption|].
        intros prompt Hin. destruct (Hall _ Hin) as (history & later & Hp & Hhead & Heq).
        exists history, (later ++ more)%list. refine (conj Hp (conj Hhead _)).
        rewrite Hmsg, Heq, <- app_assoc. reflexivity.
  - intros c' w' Hstep.
    destruct (graph_step_call c w c' w' Hstep) as [(_ & _ & -> & _)|(-> & _)];
      [right | left]; reflexivity.
Qed.

End RunStructure.

Section RunBehaviour.
Import Agent Measures.
Context {SM : StrMethods} (self : OllamaAgent).

Local Abbreviation N := (self_max_iterations self).
Local Abbreviation llm := (self_llm_with_tools self).

(** *** The graph and the console *)

(** The graph neither reads nor writes the console, and reads nothing of
    the call log: a node execution from any world is the one from the empty
    world, with the calls it makes put behind the log. *)
Lemma graph_step_frame (c : config) (w : World) :
  graph_step self c w
  = (fst (graph_step self c world0),
     {| stdout := stdout w;
        llm_calls := (llm_calls w ++ llm_calls (snd (graph_step self c world0)))%list |}).
Proof.
  destruct w as [out log].
  destruct c as [[| |] st]; unfold graph_step; cbn [at_node state_of].
  - unfold _agent_node, invoke_llm, record_call.
    destruct (iterations st >=? N).
    + destruct (_should_continue self _) as [key|e];
        [destruct (lookup_path key path_map)|]; cbn; now rewrite app_nil_r.
    + destruct (llm (system_message :: messages st));
        (destruct (_should_continue self _) as [key|e0];
         [destruct (lookup_path key path_map)|]); reflexivity.
  - destruct (self_tool_node self st); cbn; now rewrite app_nil_r.
  - cbn. now rewrite app_nil_r.
Qed.

Lemma graph_run_frame (limit_error : exn) (limit : nat) (c : config) (w : World) :
  graph_run self limit_error limit c w
  = (fst (graph_run self limit_error limit c world0),
     {| stdout := stdout w;
        llm_calls :=
          (llm_calls w ++ llm_calls (snd (graph_run self limit_error limit c world0)))%list |}).
Proof.
  revert c w. induction limit as [|limit IH]; intros c w.
  - destruct w as [out log]. cbn. now rewrite app_nil_r.
  - destruct c as [[| |] st]; cbn [graph_run at_node];
      try (destruct w as [out log]; cbn; now rewrite app_nil_r).
    + rewrite (graph_step_frame _ w).
      destruct (graph_step self {| at_node := agent; state_of := st |} world0)
        as [[c'|e] ws]; cbn [fst snd]; [|reflexivity].
      rewrite (IH c' ws), (IH c'). cbn [fst snd stdout llm_calls].
      now rewrite app_assoc.
    + rewrite (graph_step_frame _ w).
      destruct (graph_step self {| at_node := tools; state_of := st |} world0)
        as [[c'|e] ws]; cbn [fst snd]; [|reflexivity].
      rewrite (IH c' ws), (IH c'). cbn [fst snd stdout llm_calls].
      now rewrite app_assoc.
Qed.

Lemma prints_frame (verbose : bool) (lines : list string) (w : World) :
  llm_calls (prints verbose lines w) = llm_calls w
  /\ stdout (prints verbose lines w)
     = (stdout w
        ++ if verbose then map (fun line => (line ++ nl)%string) lines else [])%list.
Proof.
  unfold prints. destruct verbose; [|now rewrite app_nil_r].
  revert w. induction lines as [|line lines IH]; intros w; cbn [fold_left map].
  - now rewrite app_nil_r.
  - destruct (IH (say line w)) as [Hcalls Hout].
    split; [exact Hcalls|]. rewrite Hout.
    unfold say, with_stdout, print, print_end. cbn [stdout].
    now rewrite <- app_assoc.
Qed.

(** X3.  [verbose] changes the console and nothing else: the answer and the
    model calls of a run are the same with and without it, and a quiet run
    leaves the console as it was.  A verbose run adds, behind what was
    there, the four lines of the banner and then, when the graph returns,
    five lines (heading, rule, the answer, rule, the final counter), and
    when the graph raises, the one line with the error text. *)
Theorem verbose_only_prints (recursion_limit : nat) (task_ : string) (w : World) :
  let loud := run self recursion_limit task_ true w in
  let quiet := run self recursion_limit task_ false w in
  let banner :=
    [ (nl ++ Colors.BOLD ++ Colors.CYAN ++ str_repeat "=" 70 ++ Colors.END)%string;
      (Colors.BOLD ++ Colors.CYAN ++ "Running Agent: " ++ self_model_name self
         ++ Colors.END)%string;
      (Colors.BOLD ++ Colors.CYAN ++ str_repeat "=" 70 ++ Colors.END)%string;
      (nl ++ Colors.GREEN ++ "Task:" ++ Colors.END ++ " " ++ task_ ++ nl)%string ] in
  let report :=
    match fst (graph_invoke self recursion_limit (initial_state self task_) w) with
    | Returns final =>
        [ (Colors.GREEN ++ "Response:" ++ Colors.END)%string;
          str_repeat "-" 70;
          fst quiet;
          str_repeat "-" 70;
          (Colors.CYAN ++ "Iterations: " ++ str_int (iterations final)
             ++ Colors.END ++ nl)%string ]
    | Raises e => [ (Colors.RED ++ fst quiet ++ Colors.END)%string ]
    end in
  fst loud = fst quiet
  /\ llm_calls (snd loud) = llm_calls (snd quiet)
  /\ stdout (snd quiet) = stdout w
  /\ stdout (snd loud)
     = (stdout w ++ map (fun line => (line ++ nl)%string) (banner ++ report))%list
  /\ List.length (banner ++ report)
     = match fst (graph_invoke self recursion_limit (initial_state self task_) w) with
       | Returns _ => 9%nat
       | Raises _ => 5%nat
       end.
Proof.
  intros loud quiet banner report. subst loud quiet report. unfold run, graph_invoke.
  set (c0 := {| at_node := agent; state_of := initial_state self task_ |}).
  set (limit_error := self_graph_limit_error self recursion_limit).
  fold banner.
  rewrite (graph_run_frame limit_error recursion_limit c0 (prints true banner w)).
  rewrite (graph_run_frame limit_error recursion_limit c0 (prints false banner w)).
  rewrite (graph_run_frame limit_error recursion_limit c0 w).
  destruct (graph_run self limit_error recursion_limit c0 world0) as [[final|e] ws];
    cbn [fst snd];
    (refine (conj eq_refl (conj _ (conj eq_refl (conj _ eq_refl))));
     [ repeat (rewrite (proj1 (prints_frame _ _ _)); cbn [llm_calls]); reflexivity
     | repeat (rewrite (proj2 (prints_frame _ _ _)); cbn [stdout]);
       rewrite <- app_assoc, map_app; reflexivity ]).
Qed.

End RunBehaviour.

Section RunLength.
Import Agent Measures.
Context {SM : StrMethods} (self : OllamaAgent).

Local Abbreviation N := (self_max_iterations self).
Local Abbreviation llm := (self_llm_with_tools self).

(** *** How long a run is *)

Lemma graph_step_decreases (c : config) (w : World) (c' : config) (w' : World) :
  graph_step self c w = (Returns c', w') ->
  at_node c <> END ->
  steps_needed self c' <= steps_needed self c - 1.
Proof.
  intros Hstep Hnot.
  destruct c as [[| |] st]; [| |contradiction].
  - pose proof (agent_step_target self st w c' w' Hstep) as Htarget.
    assert (Hit : iterations (state_of c')
                  = if iterations st <? N then iterations st + 1 else iterations st).
    { unfold graph_step in Hstep. cbn [at_node state_of] in Hstep.
      destruct (Z.ltb_spec (iterations st) N) as [Hlt|Hge];
        [rewrite (agent_node_below_limit self st w Hlt) in Hstep
        |rewrite (agent_node_at_limit self st w Hge) in Hstep];
        (destruct (_should_continue self _) as [key|e]; [|discriminate]);
        (destruct (lookup_path key path_map); [|discriminate]);
        injection Hstep as <- _; reflexivity. }
    unfold steps_needed. cbn [at_node state_of]. rewrite Hit.
    destruct Htarget as [ -> |[ -> Hlt]]; rewrite ?Hit in *;
      destruct (Z.ltb_spec (iterations st) N);
      repeat match goal with |- context [0 <? ?x] => destruct (Z.ltb_spec 0 x) end; lia.
  - unfold graph_step in Hstep. cbn [at_node state_of] in Hstep.
    destruct (self_tool_node self st); [|discriminate].
    injection Hstep as <- _. unfold steps_needed. cbn [at_node state_of add_messages iterations].
    repeat match goal with |- context [0 <? ?x] => destruct (Z.ltb_spec 0 x) end; lia.
Qed.

Lemma steps_needed_END (c : config) :
  steps_needed self c <= 0 -> at_node c = END.
Proof.
  unfold steps_needed. destruct (at_node c); [| |reflexivity];
    repeat match goal with |- context [0 <? ?x] => destruct (Z.ltb_spec 0 x) end; lia.
Qed.

Lemma steps_needed_nonneg (c : config) : 0 <= steps_needed self c.
Proof.
  unfold steps_needed. destruct (at_node c);
    repeat match goal with |- context [0 <? ?x] => destruct (Z.ltb_spec 0 x) end; lia.
Qed.

(** Once the limit is above the node executions that are left, neither a
    higher limit nor another exception to give up with changes anything. *)
Lemma graph_run_enough (limit_error limit_error' : exn) (limit : nat) (c : config) (w : World)
  (k : nat) :
  steps_needed self c < Z.of_nat limit ->
  graph_run self limit_error' (limit + k) c w = graph_run self limit_error limit c w.
Proof.
  revert c w. induction limit as [|limit IH]; intros c w Hneed.
  - pose proof (steps_needed_nonneg c). cbn in Hneed. lia.
  - change (S limit + k)%nat with (S (limit + k)).
    destruct c as [[| |] st]; cbn [graph_run at_node].
    + destruct (graph_step self {| at_node := agent; state_of := st |} w)
        as [[c'|e] w'] eqn:Hstep; [|reflexivity].
      apply IH.
      pose proof (graph_step_decreases _ w c' w' Hstep ltac:(discriminate)). lia.
    + destruct (graph_step self {| at_node := tools; state_of := st |} w)
        as [[c'|e] w'] eqn:Hstep; [|reflexivity].
      apply IH.
      pose proof (graph_step_decreases _ w c' w' Hstep ltac:(discriminate)). lia.
    + reflexivity.
Qed.

(** With a tool node that does not raise, a limit above the node executions
    that are left lets the graph return. *)
Lemma graph_run_returns (limit_error : exn) (limit : nat) (c : config) (w : World) :
  steps_needed self c < Z.of_nat limit ->
  messages (state_of c) <> [] ->
  (forall st e, self_tool_node self st <> Raises e) ->
  exists final w', graph_run self limit_error limit c w = (Returns final, w').
Proof.
  intros Hneed Hne Htool. revert c w Hneed Hne.
  induction limit as [|limit IH]; intros c w Hneed Hne.
  - pose proof (steps_needed_nonneg c). cbn in Hneed. lia.
  - destruct (graph_step_returns self c w Hne (Htool (state_of c))) as (c' & w' & Hstep).
    destruct c as [[| |] st]; cbn [graph_run at_node]; [| |eauto]; rewrite Hstep;
      (apply IH;
       [ pose proof (graph_step_decreases _ w c' w' Hstep ltac:(discriminate)); lia
       | destruct (graph_step_extends self _ w c' w' Hstep) as ((more & Hmore) & _);
         rewrite Hmore; cbn [state_of] in *; destruct (messages st);
         [contradiction | discriminate] ]).
Qed.

(** X4.  A run takes at most 2 N - 1 node executions (one when the budget
    is below one), and the graph needs one round more to find that it is at
    END.  With a recursion limit of at least 2 N, and of at least two, the
    limit is never hit: any higher limit gives the same run, and the graph
    returns a final state unless the tool node raises. *)
Theorem recursion_limit_covers_budget
  (recursion_limit k : nat) (task_ : string) (verbose : bool) (w : World) :
  (2 <= recursion_limit)%nat ->
  2 * N <= Z.of_nat recursion_limit ->
  graph_invoke self (recursion_limit + k) (initial_state self task_) w
  = graph_invoke self recursion_limit (initial_state self task_) w
  /\ run self (recursion_limit + k) task_ verbose w
     = run self recursion_limit task_ verbose w
  /\ ((forall st e, self_tool_node self st <> Raises e) ->
      exists final w',
        graph_invoke self recursion_limit (initial_state self task_) w
        = (Returns final, w')).
Proof.
  intros Htwo Hlimit.
  assert (Hneed : steps_needed self
                    {| at_node := agent; state_of := initial_state self task_ |}
                  < Z.of_nat recursion_limit).
  { unfold steps_needed. cbn [at_node state_of initial_state iterations].
    destruct (Z.ltb_spec 0 (N - 0)); lia. }
  refine (conj _ (conj _ _)).
  - unfold graph_invoke. now apply graph_run_enough.
  - unfold run, graph_invoke.
    now rewrite (graph_run_enough (self_graph_limit_error self recursion_limit)).
  - intros Htool. unfold graph_invoke. apply graph_run_returns; [assumption| |assumption].
    discriminate.
Qed.

(** While every reply asks for a tool and the tool node answers, the loop
    goes on until the counter is at the budget: it then returns if the limit
    is above the node executions that were left, and gives up, after the same
    calls, if the limit is exactly their number. *)
Lemma graph_run_uses_budget (limit_error : exn) (limit : nat) (c : config) (w : World) :
  (forall prompt, requests_tool (reply_of (llm prompt))) ->
  (forall st e, self_tool_node self st <> Raises e) ->
  at_node c <> END ->
  iterations (state_of c) < N ->
  steps_needed self c <= Z.of_nat limit ->
  exists calls,
    calls_between w (snd (graph_run self limit_error limit c w)) calls
    /\ Z.of_nat (List.length calls) = N - iterations (state_of c)
    /\ (steps_needed self c < Z.of_nat limit ->
        exists final, fst (graph_run self limit_error limit c w) = Returns final
                      /\ iterations final = N)
    /\ (steps_needed self c = Z.of_nat limit ->
        fst (graph_run self limit_error limit c w) = Raises limit_error).
Proof.
  intros Hasks Htool. revert c w.
  induction limit as [|limit IH]; intros c w Hnot Hlt Hneed.
  - pose proof (steps_needed_END c ltac:(cbn in Hneed; lia)). contradiction.
  - destruct c as [[| |] st]; [| |contradiction]; cbn [graph_run at_node state_of] in *.
    + (* agent: one call, then END at the budget or tools below it *)
      set (st' := apply_update st
                    {| messages := [reply_of (llm (system_message :: messages st))];
                       task := task st;
                       result := result st;
                       iterations := iterations st + 1;
                       max_iterations := max_iterations st |}).
      set (w1 := record_call (system_message :: messages st) w).
      assert (Hstep : forall key n,
                 _should_continue self st' = Returns key ->
                 lookup_path key path_map = Returns n ->
                 graph_step self {| at_node := agent; state_of := st |} w
                 = (Returns {| at_node := n; state_of := st' |}, w1)).
      { intros key n Hkey Hn. unfold graph_step. cbn [at_node state_of].
        rewrite (agent_node_below_limit self st w Hlt). fold st'. now rewrite Hkey, Hn. }
      destruct (should_continue_iff self st' (reply_of (llm (system_message :: messages st))))
        as [Hcont Hend]; [apply last_message_app|].
      assert (Hhere : steps_needed self {| at_node := agent; state_of := st |}
                      = 2 * (N - iterations st) - 1).
      { unfold steps_needed. cbn [at_node state_of].
        destruct (Z.ltb_spec 0 (N - iterations st)); lia. }
      rewrite Hhere in *.
      destruct (Z.lt_ge_cases (iterations st + 1) N) as [Hmore|Hdone].
      * specialize (Hstep "continue" tools (proj2 Hcont (conj Hmore (Hasks _))) eq_refl).
        rewrite Hstep.
        assert (Hthere : steps_needed self {| at_node := tools; state_of := st' |}
                         = 2 * (N - iterations st) - 2).
        { unfold steps_needed. cbn [at_node state_of st' apply_update iterations].
          destruct (Z.ltb_spec 0 (N - (iterations st + 1))); lia. }
        destruct (IH {| at_node := tools; state_of := st' |} w1)
          as (calls & Hcalls & Hlen & Hret & Hgive);
          [discriminate | exact Hmore | lia |].
        rewrite Hthere in *.
        exists ((system_message :: messages st) :: calls).
        refine (conj _ (conj _ (conj _ _))).
        -- unfold calls_between in *. rewrite Hcalls. subst w1. cbn.
           now rewrite <- app_assoc.
        -- cbn [List.length st' state_of apply_update iterations] in *. lia.
        -- intros Hbelow. apply Hret. lia.
        -- intros Hexact. apply Hgive. lia.
      * assert (Hno : ~ (iterations st' < N
                         /\ requests_tool (reply_of (llm (system_message :: messages st)))))
          by (cbn; lia).
        specialize (Hstep "end" END (proj2 Hend Hno) eq_refl).
        rewrite Hstep. exists [system_message :: messages st].
        refine (conj _ (conj _ (conj _ _))).
        -- destruct limit; cbn; reflexivity.
        -- cbn. lia.
        -- intros Hbelow. destruct limit as [|limit]; [lia|].
           exists st'. cbn. split; [reflexivity | lia].
        -- intros Hexact. destruct limit as [|limit]; [reflexivity | lia].
    + (* tools: back to agent, no call *)
      unfold graph_step. cbn [at_node state_of].
      destruct (self_tool_node self st) as [ms|e] eqn:Hms; [|now destruct (Htool st e)].
      assert (Hhere : steps_needed self {| at_node := tools; state_of := st |}
                      = 2 * (N - iterations st)).
      { unfold steps_needed. cbn [at_node state_of].
        destruct (Z.ltb_spec 0 (N - iterations st)); lia. }
      assert (Hthere : steps_needed self
                         {| at_node := agent; state_of := add_messages st ms |}
                       = 2 * (N - iterations st) - 1).
      { unfold steps_needed. cbn [at_node state_of add_messages iterations].
        destruct (Z.ltb_spec 0 (N - iterations st)); lia. }
      rewrite Hhere in *.
      destruct (IH {| at_node := agent; state_of := add_messages st ms |} w
                  ltac:(discriminate) Hlt) as (calls & Hcalls & Hlen & Hret & Hgive);
        [lia|].
      rewrite Hthere in *.
      exists calls. refine (conj Hcalls (conj Hlen (conj _ _))).
      -- intros Hbelow. apply Hret. lia.
      -- intros Hexact. apply Hgive. lia.
Qed.

(** X5.  The budget is used up when the model keeps asking.  If every reply
    of the model requests a tool and the tool node never raises, a run with
    budget N >= 1 makes exactly N model calls.  With a recursion limit of at
    least 2 N the graph then returns with the counter equal to N; with a
    limit of exactly 2 N - 1, the number of its node executions, it gives up
    with the library's exception after the same N calls. *)
Theorem persistent_model_uses_whole_budget
  (recursion_limit : nat) (task_ : string) (w : World) :
  1 <= N ->
  2 * N - 1 <= Z.of_nat recursion_limit ->
  (forall prompt, requests_tool (reply_of (llm prompt))) ->
  (forall st e, self_tool_node self st <> Raises e) ->
  let out := graph_invoke self recursion_limit (initial_state self task_) w in
  (exists calls, calls_between w (snd out) calls /\ Z.of_nat (List.length calls) = N)
  /\ (2 * N <= Z.of_nat recursion_limit ->
      exists final, fst out = Returns final /\ iterations final = N)
  /\ (2 * N - 1 = Z.of_nat recursion_limit ->
      fst out = Raises (self_graph_limit_error self recursion_limit)).
Proof.
  intros HN Hlimit Hasks Htool out. subst out. unfold graph_invoke.
  assert (Hhere : steps_needed self
                    {| at_node := agent; state_of := initial_state self task_ |}
                  = 2 * N - 1).
  { unfold steps_needed. cbn [at_node state_of initial_state iterations].
    destruct (Z.ltb_spec 0 (N - 0)); lia. }
  destruct (graph_run_uses_budget (self_graph_limit_error self recursion_limit)
              recursion_limit
              {| at_node := agent; state_of := initial_state self task_ |} w Hasks Htool)
    as (calls & Hcalls & Hlen & Hret & Hgive);
    [discriminate | cbn; lia | lia |].
  rewrite Hhere in *. refine (conj _ (conj _ _)).
  - exists calls. split; [exact Hcalls | cbn in Hlen; lia].
  - intros Hbelow. apply Hret. lia.
  - intros Hexact. apply Hgive. lia.
Qed.

End RunLength.

Section RunResult.
Import Agent Measures.
Context {SM : StrMethods} (self : OllamaAgent).

Local Abbreviation N := (self_max_iterations self).

(** The state the graph returns is a state the run has reached. *)
Lemma graph_run_reachable (task_ : string) (w0 : World) (limit_error : exn) (limit : nat)
  (c : config) (w : World) (final : AgentState) (w' : World) :
  reachable self task_ w0 c w ->
  graph_run self limit_error limit c w = (Returns final, w') ->
  reachable self task_ w0 {| at_node := END; state_of := final |} w'.
Proof.
  revert c w. induction limit as [|limit IH]; intros c w Hreach Hrun; [discriminate|].
  destruct c as [[| |] st]; cbn [graph_run at_node] in Hrun.
  - destruct (graph_step self _ w) as [[c1|e] w1] eqn:Hstep; [|discriminate].
    exact (IH c1 w1 (reach_step self task_ w0 _ w c1 w1 Hreach Hstep) Hrun).
  - destruct (graph_step self _ w) as [[c1|e] w1] eqn:Hstep; [|discriminate].
    exact (IH c1 w1 (reach_step self task_ w0 _ w c1 w1 Hreach Hstep) Hrun).
  - now injection Hrun as <- <-.
Qed.

(** X6.  What [run] hands back is the content of the last message of the
    final history whenever the graph returns, and the text
    [Error running agent: <text>] whenever the graph raises.  The final
    history is never empty, so the answer [No response generated.] of the
    source is never given by that branch. *)
Theorem run_answers_with_last_message
  (recursion_limit : nat) (task_ : string) (verbose : bool) (w : World) :
  match fst (graph_invoke self recursion_limit (initial_state self task_) w) with
  | Returns final =>
      messages final <> []
      /\ exists last,
           last_message (messages final) = Returns last
           /\ fst (run self recursion_limit task_ verbose w) = content last
  | Raises e =>
      fst (run self recursion_limit task_ verbose w)
      = "Error running agent: " ++ str_exn e
  end.
Proof.
  unfold run, graph_invoke.
  set (c0 := {| at_node := agent; state_of := initial_state self task_ |}).
  set (limit_error := self_graph_limit_error self recursion_limit).
  rewrite (graph_run_frame self limit_error recursion_limit c0 w).
  rewrite (graph_run_frame self limit_error recursion_limit c0 (prints verbose _ w)).
  cbn [fst].
  destruct (graph_run self limit_error recursion_limit c0 world0) as [[final|e] ws] eqn:Hrun;
    cbn [fst]; [|reflexivity].
  pose proof (graph_run_reachable task_ world0 limit_error recursion_limit c0 world0 final ws
                (reach_entry self task_ world0) Hrun) as Hreach.
  pose proof (reachable_messages_nonempty self task_ world0 _ _ Hreach) as Hne.
  cbn [state_of] in Hne. split; [exact Hne|].
  destruct (last_message_nonempty (messages final) Hne) as [last Hlast].
  exists last. split; [exact Hlast|]. now rewrite Hlast.
Qed.

(** X7.  A budget below one: the model is never called, the limit branch of
    the agent node writes its message into [result] and hands the history
    back to the reducer, which appends it to itself, and [run] answers with
    the task it was given.  The recursion limit has to leave room for the one
    node execution, as every limit from two on does. *)
Theorem budget_below_one_echoes_task
  (recursion_limit : nat) (task_ : string) (verbose : bool) (w : World) :
  N <= 0 ->
  (2 <= recursion_limit)%nat ->
  graph_invoke self recursion_limit (initial_state self task_) w
  = (Returns {| messages := [HumanMessage task_; HumanMessage task_];
                task := task_;
                result := "Maximum iterations reached.";
                iterations := 0;
                max_iterations := N |}, w)
  /\ fst (run self recursion_limit task_ verbose w) = task_
  /\ llm_calls (snd (run self recursion_limit task_ verbose w)) = llm_calls w.
Proof.
  intros HN Hlimit.
  assert (Hinvoke : forall w1,
             graph_invoke self recursion_limit (initial_state self task_) w1
             = (Returns {| messages := [HumanMessage task_; HumanMessage task_];
                           task := task_;
                           result := "Maximum iterations reached.";
                           iterations := 0;
                           max_iterations := N |}, w1)).
  { intros w1. unfold graph_invoke.
    destruct recursion_limit as [|[|limit]]; [lia|lia|].
    cbn [graph_run at_node]. unfold graph_step. cbn [at_node state_of].
    rewrite agent_node_at_limit by (cbn; lia).
    unfold _should_continue.
    cbn [apply_update initial_state messages app last_message iterations].
    destruct (Z.geb_spec 0 N); [|lia].
    reflexivity. }
  refine (conj (Hinvoke w) (conj _ _)).
  - unfold run. rewrite Hinvoke. reflexivity.
  - rewrite run_calls, Hinvoke. reflexivity.
Qed.

(** X8.  With a budget of at least one, the state the graph returns never
    carries the message of the limit branch: the key [result] holds the empty
    string it started with, although the counter may well be at the budget. *)
Theorem result_key_stays_empty
  (recursion_limit : nat) (task_ : string) (w : World) (final : AgentState) :
  1 <= N ->
  fst (graph_invoke self recursion_limit (initial_state self task_) w) = Returns final ->
  result final = "" /\ iterations final <= N.
Proof.
  intros HN Hfinal. unfold graph_invoke in Hfinal.
  destruct (graph_run self _ recursion_limit _ w) as [out w'] eqn:Hrun.
  cbn in Hfinal. subst out.
  pose proof (graph_run_reachable task_ w _ recursion_limit _ w final w'
                (reach_entry self task_ w) Hrun) as Hreach.
  split.
  - exact (proj1 (result_never_written self task_ w _ _ ltac:(lia) Hreach)).
  - destruct (reachable_invariant self task_ w _ _ ltac:(lia) Hreach) as [Hrange _].
    cbn in Hrange. lia.
Qed.

End RunResult.

(** *** The further properties on the example agents *)

Lemma chatty_first_turn_reachable :
  @Agent.reachable AsciiStr Examples.chatty "What is 2+2?" world0
    MoreExamples.chatty_after_first_turn MoreExamples.world_after_first_turn.
Proof.
  eapply Agent.reach_step; [apply Agent.reach_entry|]. vm_compute. reflexivity.
Qed.

Lemma history_is_append_only_witness :
  @Agent.reachable AsciiStr Examples.chatty "What is 2+2?" world0
    MoreExamples.chatty_after_first_turn MoreExamples.world_after_first_turn
  /\ exists rest,
       Agent.messages (Agent.state_of MoreExamples.chatty_after_first_turn)
       = HumanMessage "What is 2+2?" :: rest.
Proof.
  split; [exact chatty_first_turn_reachable|].
  exact (proj1 (@history_is_append_only AsciiStr Examples.chatty "What is 2+2?" world0
                  _ _ chatty_first_turn_reachable)).
Defined.

Lemma prompts_grow_strictly_witness :
  @Agent.reachable AsciiStr Examples.chatty "What is 2+2?" world0
    MoreExamples.chatty_after_first_turn MoreExamples.world_after_first_turn
  /\ exists calls,
       Agent.calls_between world0 MoreExamples.world_after_first_turn calls
       /\ NoDup calls
       /\ forall prompt, In prompt calls ->
            exists history later,
              prompt = Agent.system_message :: history
              /\ (exists tail, history = HumanMessage "What is 2+2?" :: tail)
              /\ Agent.messages (Agent.state_of MoreExamples.chatty_after_first_turn)
                 = (history
                      ++ Agent.reply_of (Agent.self_llm_with_tools Examples.chatty prompt)
                      :: later)%list.
Proof.
  split; [exact chatty_first_turn_reachable|].
  exact (proj1 (@prompts_grow_strictly AsciiStr Examples.chatty "What is 2+2?" world0
                  _ _ chatty_first_turn_reachable)).
Defined.

Lemma recursion_limit_covers_budget_witness :
  (2 <= 4)%nat
  /\ 2 * Agent.self_max_iterations Examples.chatty <= Z.of_nat 4
  /\ @Agent.run AsciiStr Examples.chatty (4 + 21) "What is 2+2?" false world0
     = @Agent.run AsciiStr Examples.chatty 4 "What is 2+2?" false world0.
Proof.
  assert (H1 : (2 <= 4)%nat) by lia.
  assert (H2 : 2 * Agent.self_max_iterations Examples.chatty <= Z.of_nat 4)
    by (cbn; lia).
  refine (conj H1 (conj H2 _)).
  exact (proj1 (proj2 (@recursion_limit_covers_budget AsciiStr Examples.chatty
                         4%nat 21%nat "What is 2+2?" false world0 H1 H2))).
Defined.

Lemma persistent_model_uses_whole_budget_witness :
  1 <= Agent.self_max_iterations Examples.chatty
  /\ 2 * Agent.self_max_iterations Examples.chatty - 1 <= Z.of_nat 3
  /\ (exists calls,
        Agent.calls_between world0
          (snd (@Agent.graph_invoke AsciiStr Examples.chatty 3
                  (Agent.initial_state Examples.chatty "What is 2+2?") world0)) calls
        /\ Z.of_nat (List.length calls) = 2)
  /\ fst (@Agent.graph_invoke AsciiStr Examples.chatty 3
            (Agent.initial_state Examples.chatty "What is 2+2?") world0)
     = Raises (Examples.recursion_error 3).
Proof.
  assert (H1 : 1 <= Agent.self_max_iterations Examples.chatty) by (cbn; lia).
  assert (H2 : 2 * Agent.self_max_iterations Examples.chatty - 1 <= Z.of_nat 3)
    by (cbn; lia).
  assert (H3 : forall prompt,
             @Agent.requests_tool AsciiStr
               (Agent.reply_of (Agent.self_llm_with_tools Examples.chatty prompt))).
  { intros prompt. apply (@requests_tool_iff AsciiStr). reflexivity. }
  assert (H4 : forall st e, Agent.self_tool_node Examples.chatty st <> Raises e)
    by (intros st e; discriminate).
  refine (conj H1 (conj H2 _)).
  pose proof (@persistent_model_uses_whole_budget AsciiStr Examples.chatty 3%nat
                "What is 2+2?" world0 H1 H2 H3 H4) as (Hcalls & _ & Hgive).
  split; [exact Hcalls | exact (Hgive eq_refl)].
Defined.

Lemma budget_below_one_echoes_task_witness :
  Agent.self_max_iterations MoreExamples.idle <= 0
  /\ (2 <= 25)%nat
  /\ fst (@Agent.run AsciiStr MoreExamples.idle 25 "Capital of France?" true world0)
     = "Capital of France?".
Proof.
  assert (H1 : Agent.self_max_iterations MoreExamples.idle <= 0) by (cbn; lia).
  assert (H2 : (2 <= 25)%nat) by lia.
  refine (conj H1 (conj H2 _)).
  exact (proj1 (proj2 (@budget_below_one_echoes_task AsciiStr MoreExamples.idle
                         25%nat "Capital of France?" true world0 H1 H2))).
Defined.

Lemma result_key_stays_empty_witness :
  1 <= Agent.self_max_iterations Examples.chatty
  /\ exists final,
       fst (@Agent.graph_invoke AsciiStr Examples.chatty 25
              (Agent.initial_state Examples.chatty "What is 2+2?") world0)
       = Returns final
       /\ Agent.iterations final = 2
       /\ Agent.result final = "".
Proof.
  assert (HN : 1 <= Agent.self_max_iterations Examples.chatty) by (cbn; lia).
  split; [exact HN|].
  eexists. split; [vm_compute; reflexivity|]. split; [reflexivity|].
  refine (proj1 (@result_key_stays_empty AsciiStr Examples.chatty 25%nat
                   "What is 2+2?" world0 _ HN _)).
  vm_compute. reflexivity.
Defined.

(* ===================================================================== *)
(** * Further properties of the tools *)
(* ===================================================================== *)

Section ToolDetails.
Import Tools Measures.
Context {SM : StrMethods} (host : Host).

(** X9.  The documentation lookup knows the four topics docker, ollama,
    langgraph and zscaler, and answers with the first of them, in this
    order, whose name occurs in the lowercased query, whatever else the query
    mentions: docker whenever it occurs, ollama when docker does not, and so
    on.  It answers that nothing was found exactly when none of the four
    names occurs. *)
Theorem search_documentation_first_topic_wins (query : string) (w : World) :
  let mentions := fun topic => Agent.substring_of topic (str_lower query) in
  let answer := search_documentation query w in
  map fst docs = ["docker"; "ollama"; "langgraph"; "zscaler"]
  /\ (mentions "docker" ->
      answer
      = (Returns "Documentation for 'docker': Docker is a platform for developing, shipping, and running applications in containers. Key commands: docker run, docker build, docker ps.", w))
  /\ (~ mentions "docker" -> mentions "ollama" ->
      answer
      = (Returns "Documentation for 'ollama': Ollama is a tool for running large language models locally. Use 'ollama pull' to download models and 'ollama run' to interact with them.", w))
  /\ (~ mentions "docker" -> ~ mentions "ollama" -> mentions "langgraph" ->
      answer
      = (Returns "Documentation for 'langgraph': LangGraph is a library for building stateful, multi-actor applications with LLMs. It uses graphs to define agent workflows.", w))
  /\ (~ mentions "docker" -> ~ mentions "ollama" -> ~ mentions "langgraph" ->
      mentions "zscaler" ->
      answer
      = (Returns "Documentation for 'zscaler': Zscaler is a cloud security platform. For Docker, add the Zscaler root certificate to the container's trust store.", w))
  /\ ((~ mentions "docker" /\ ~ mentions "ollama" /\ ~ mentions "langgraph"
       /\ ~ mentions "zscaler")
      <-> answer
          = (Returns "No documentation found for that query. Try: docker, ollama, langgraph, or zscaler.", w)).
Proof.
  intros mentions answer. subst mentions answer. unfold search_documentation.
  assert (Hfind : forall topic, str_in topic (str_lower query) = true
                                <-> Agent.substring_of topic (str_lower query))
    by (intros topic; apply str_in_iff).
  assert (Hnot : forall topic, ~ Agent.substring_of topic (str_lower query) ->
                               str_in topic (str_lower query) = false).
  { intros topic H. destruct (str_in topic (str_lower query)) eqn:E; [|reflexivity].
    apply Hfind in E. contradiction. }
  refine (conj eq_refl (conj _ (conj _ (conj _ (conj _ (conj _ _)))))).
  - intros Hd. cbn [docs find fst]. now rewrite (proj2 (Hfind _) Hd).
  - intros Hd Ho. cbn [docs find fst].
    now rewrite (Hnot _ Hd), (proj2 (Hfind _) Ho).
  - intros Hd Ho Hl. cbn [docs find fst].
    now rewrite (Hnot _ Hd), (Hnot _ Ho), (proj2 (Hfind _) Hl).
  - intros Hd Ho Hl Hz. cbn [docs find fst].
    now rewrite (Hnot _ Hd), (Hnot _ Ho), (Hnot _ Hl), (proj2 (Hfind _) Hz).
  - intros (Hd & Ho & Hl & Hz). cbn [docs find fst].
    now rewrite (Hnot _ Hd), (Hnot _ Ho), (Hnot _ Hl), (Hnot _ Hz).
  - cbn [docs find fst].
    destruct (str_in "docker" (str_lower query)) eqn:Ed; [cbn; discriminate|].
    destruct (str_in "ollama" (str_lower query)) eqn:Eo; [cbn; discriminate|].
    destruct (str_in "langgraph" (str_lower query)) eqn:El; [cbn; discriminate|].
    destruct (str_in "zscaler" (str_lower query)) eqn:Ez; [cbn; discriminate|].
    intros _. repeat split; intros H; apply Hfind in H; congruence.
Qed.

Lemma split_char_length (sep : ascii) (s : string) :
  List.length (split_char sep s) = S (count_char sep s).
Proof.
  induction s as [|a s IH]; [reflexivity|]. cbn.
  destruct (Ascii.eqb a sep); cbn; [now rewrite IH|].
  destruct (split_char sep s); [discriminate | exact IH].
Qed.

(** X10.  When [docker ps] returns, the status tool looks at nothing but the
    return code and the line breaks of the output: on return code 0 it
    reports as many containers as there are line breaks inside the stripped
    output (so none for a bare header line or for no output at all, and
    never a negative number), on any other code it reports that Docker is
    not running. *)
Theorem docker_status_counts_line_breaks (p : CompletedProcess) (w : World) :
  subprocess_run host ["docker"; "ps"] = Returns p ->
  (returncode p = 0 ->
   check_docker_status host w
   = (Returns ("Docker is running. "
                 ++ str_int (Z.of_nat (count_char "010"%char (str_strip (proc_stdout p))))
                 ++ " container(s) active."), w))
  /\ (returncode p <> 0 ->
      check_docker_status host w
      = (Returns "Docker is not running or not accessible.", w)).
Proof.
  intros Hrun. unfold check_docker_status. rewrite Hrun. split; intros Hcode.
  - rewrite Hcode. cbn [Z.eqb]. rewrite split_char_length.
    replace (Z.of_nat (S (count_char "010" (str_strip (proc_stdout p)))) - 1)
      with (Z.of_nat (count_char "010" (str_strip (proc_stdout p)))) by lia.
    reflexivity.
  - destruct (Z.eqb_spec (returncode p) 0); [contradiction | reflexivity].
Qed.

End ToolDetails.

Lemma docker_status_counts_line_breaks_witness :
  let p := {| Tools.returncode := 0;
              Tools.proc_stdout :=
                "CONTAINER ID   IMAGE" ++ nl ++ "1f2e   ollama" ++ nl
                  ++ "9a8b   webui" ++ nl |} in
  Tools.subprocess_run Examples.docker_box ["docker"; "ps"] = Returns p
  /\ Tools.returncode p = 0
  /\ @Tools.check_docker_status AsciiStr Examples.docker_box world0
     = (Returns ("Docker is running. "
                   ++ str_int (Z.of_nat (Measures.count_char "010"%char
                                           (@str_strip AsciiStr (Tools.proc_stdout p))))
                   ++ " container(s) active."), world0).
Proof.
  intros p.
  refine (conj eq_refl (conj eq_refl _)).
  exact (proj1 (@docker_status_counts_line_breaks AsciiStr Examples.docker_box p world0
                  eq_refl) eq_refl).
Defined.

(* ===================================================================== *)
(** * Further properties of the client wrapper *)
(* ===================================================================== *)

Section Streaming.
Import Ollama Client Measures.
Variable net : Network.

Lemma append_empty_r (s : string) : s ++ "" = s.
Proof. induction s as [|a s IH]; [reflexivity|]. cbn. now rewrite IH. Qed.

Lemma append_assoc (a b c : string) : (a ++ b) ++ c = a ++ (b ++ c).
Proof. induction a as [|x a IH]; [reflexivity|]. cbn. now rewrite IH. Qed.

(** While the pieces are texts, the streaming loop prints every piece and
    collects them in order. *)
Lemma stream_loop_collects {A : Type} (piece : A -> value) (chunks : list A)
  (texts : list string) (so_far : string) (out : console) :
  map piece chunks = map PyStr texts ->
  stream_loop piece chunks so_far out
  = (Returns (so_far ++ join texts), (out ++ texts)%list).
Proof.
  revert texts so_far out.
  induction chunks as [|chunk chunks IH]; intros [|text texts] so_far out Hmap;
    try discriminate; cbn.
  - now rewrite append_empty_r, app_nil_r.
  - cbn in Hmap. injection Hmap as Hpiece Hmap. rewrite Hpiece.
    rewrite (IH texts _ _ Hmap). unfold print_end. cbn [str_value].
    rewrite append_empty_r, append_assoc, <- app_assoc. reflexivity.
Qed.

(** A piece that is [None] is printed and ends the loop with the
    [TypeError] of the concatenation; the chunks behind it are not read. *)
Lemma stream_loop_breaks {A : Type} (piece : A -> value) (before : list A) (chunk : A)
  (after : list A) (texts : list string) (so_far : string) (out : console) :
  map piece before = map PyStr texts ->
  piece chunk = PyNone ->
  stream_loop piece (before ++ chunk :: after) so_far out
  = (Raises concat_type_error, (out ++ texts ++ ["None"])%list).
Proof.
  revert texts so_far out.
  induction before as [|b before IH]; intros [|text texts] so_far out Hmap Hnone;
    try discriminate; cbn.
  - now rewrite Hnone.
  - cbn in Hmap. injection Hmap as Hpiece Hmap. rewrite Hpiece.
    rewrite (IH texts _ _ Hmap Hnone). unfold print_end. cbn [str_value].
    rewrite append_empty_r, <- app_assoc. reflexivity.
Qed.

(** X11.  Streaming, for chunks whose piece of the answer is a text (a
    missing key counts as the empty text): the pieces are echoed to the
    console one by one, in order.  When the stream ends by itself,
    [generate] and [chat] return exactly the text that was echoed; when it
    breaks off, the pieces that arrived stay on the console, followed by the
    error line, and the result is [None].  A chunk of [chat] whose content is
    [None] is echoed as [None] and ends the loop: the error line of the
    failed concatenation follows and the result is [None]. *)
Theorem stream_returns_what_it_echoed
  (self : OllamaClient) (model prompt : string) (messages : list MessageDict)
  (out : console) :
  (forall chunks failure texts,
      client_generate_stream net (host self) model prompt = (chunks, failure) ->
      map (fun chunk => get_response chunk "") chunks = map PyStr texts ->
      generate net self model prompt true out
      = match failure with
        | None =>
            (Returns (Some (join texts)),
             (out ++ [(nl ++ model ++ ": ")%string] ++ texts ++ [nl])%list)
        | Some e =>
            (Returns None,
             (out ++ [(nl ++ model ++ ": ")%string] ++ texts
                  ++ [("Error generating response: " ++ str_exn e ++ nl)%string])%list)
        end)
  /\ (forall chunks failure texts,
         client_chat_stream net (host self) model messages = (chunks, failure) ->
         map (fun chunk => get_message_content chunk "") chunks = map PyStr texts ->
         chat net self model messages true out
         = match failure with
           | None =>
               (Returns (Some (join texts)),
                (out ++ [(nl ++ model ++ ": ")%string] ++ texts ++ [nl])%list)
           | Some e =>
               (Returns None,
                (out ++ [(nl ++ model ++ ": ")%string] ++ texts
                     ++ [("Error in chat: " ++ str_exn e ++ nl)%string])%list)
           end)
  /\ (forall before chunk after failure texts,
         client_chat_stream net (host self) model messages
         = ((before ++ chunk :: after)%list, failure) ->
         map (fun chunk => get_message_content chunk "") before = map PyStr texts ->
         get_message_content chunk "" = PyNone ->
         chat net self model messages true out
         = (Returns None,
            (out ++ [(nl ++ model ++ ": ")%string] ++ texts
                 ++ ["None";
                     ("Error in chat: can only concatenate str (not " ++ dq ++ "NoneType"
                        ++ dq ++ ") to str" ++ nl)%string])%list)).
Proof.
  refine (conj _ (conj _ _)).
  - intros chunks failure texts Hstream Htexts.
    unfold generate. rewrite Hstream, (stream_loop_collects _ _ texts _ _ Htexts).
    unfold print, print_end. rewrite !append_assoc.
    destruct failure; cbn [append]; now rewrite <- !app_assoc.
  - intros chunks failure texts Hstream Htexts.
    unfold chat. rewrite Hstream, (stream_loop_collects _ _ texts _ _ Htexts).
    unfold print, print_end. rewrite !append_assoc.
    destruct failure; cbn [append]; now rewrite <- !app_assoc.
  - intros before chunk after failure texts Hstream Htexts Hnone.
    unfold chat. rewrite Hstream.
    rewrite (stream_loop_breaks _ before chunk after texts _ _ Htexts Hnone).
    unfold print, print_end, concat_type_error. cbn [str_exn].
    rewrite !append_assoc. cbn [append]. now rewrite <- !app_assoc.
Qed.

End Streaming.

(* ===================================================================== *)
(** * Properties of the multi-agent collaboration *)
(* ===================================================================== *)

Section Collaboration.
Import Multi.
Variable str_upper : string -> string.
Variable self : MultiAgentSystem.

Lemma tprints_prompts (verbose : bool) (lines : list string) (w : TextWorld) :
  prompts (tprints verbose lines w) = prompts w.
Proof. now destruct verbose. Qed.

(** A specialist is asked exactly once, with its own prompt, whether the
    model answers or raises. *)
Lemma run_specialist_prompts (task specialty : string) (verbose : bool) (w : TextWorld) :
  prompts (snd (run_specialist str_upper self task specialty verbose w))
  = (prompts w ++ [full_prompt task specialty])%list.
Proof.
  unfold run_specialist, llm_invoke.
  destruct (self_llm self _ _); cbn [snd prompts];
    now rewrite ?tprints_prompts; cbn [prompts]; rewrite ?tprints_prompts.
Qed.

Lemma dict_set_keys (key value : string) (d : list (string * string)) (k : string) :
  In k (map fst (dict_set key value d)) <-> k = key \/ In k (map fst d).
Proof.
  induction d as [|[k0 v0] d IH]; cbn.
  - intuition congruence.
  - destruct (String.eqb_spec k0 key) as [->|Hne]; cbn; [intuition congruence|].
    rewrite IH. intuition congruence.
Qed.

Lemma dict_set_nodup (key value : string) (d : list (string * string)) :
  NoDup (map fst d) -> NoDup (map fst (dict_set key value d)).
Proof.
  induction d as [|[k0 v0] d IH]; cbn; intros Hnodup.
  - repeat constructor. intros [].
  - destruct (String.eqb_spec k0 key) as [->|Hne]; cbn; [exact Hnodup|].
    apply NoDup_cons_iff in Hnodup. destruct Hnodup as [Hnotin Hnodup].
    apply NoDup_cons_iff. split; [|now apply IH].
    rewrite dict_set_keys. intros [Heq|Hin]; [congruence | contradiction].
Qed.

Lemma collaborate_loop_spec (task : string) (verbose : bool) (specialists : list string)
  (results : list (string * string)) (w : TextWorld) :
  NoDup (map fst results) ->
  let out := collaborate_loop str_upper self task verbose specialists results w in
  prompts (snd out) = (prompts w ++ map (full_prompt task) specialists)%list
  /\ NoDup (map fst (fst out))
  /\ forall k, In k (map fst (fst out)) <-> In k (map fst results) \/ In k specialists.
Proof.
  revert results w. induction specialists as [|s specialists IH]; intros results w Hnodup.
  - cbn. rewrite app_nil_r. intuition.
  - cbn [collaborate_loop].
    pose proof (run_specialist_prompts task s verbose w) as Hprompt.
    destruct (run_specialist str_upper self task s verbose w) as [answer w1].
    cbn [snd] in Hprompt.
    destruct (IH (dict_set s answer results) w1 (dict_set_nodup s answer results Hnodup))
      as (Hp & Hn & Hk).
    refine (conj _ (conj Hn _)).
    + rewrite Hp, Hprompt. cbn. now rewrite <- app_assoc.
    + intros k. rewrite Hk, dict_set_keys. cbn. intuition congruence.
Qed.

(** X12.  A collaboration asks the model once for every entry of the list of
    specialists, in the order of the list and whether or not earlier
    requests failed.  The prompt of a request is the system prompt of the
    specialist (the one for a coder, an analyst, a debugger or an architect,
    and the one of a helpful assistant for any other name), an empty line,
    and the task.  The result has one entry for every distinct name of the
    list: naming a specialist twice costs two requests and leaves one
    answer. *)
Theorem collaborate_asks_each_entry_once
  (task : string) (specialists : list string) (verbose : bool) (w : TextWorld) :
  let out := collaborate str_upper self task specialists verbose w in
  let system_prompt := fun specialty =>
    if String.eqb "coder" specialty
    then "You are an expert Python programmer. Provide clean, efficient code with explanations."
    else if String.eqb "analyst" specialty
    then "You are a data analyst. Provide insights, patterns, and recommendations."
    else if String.eqb "debugger" specialty
    then "You are a debugging expert. Identify issues and provide solutions."
    else if String.eqb "architect" specialty
    then "You are a system architect. Design scalable, maintainable solutions."
    else "You are a helpful AI assistant." in
  prompts (snd out)
  = (prompts w
       ++ map (fun specialty =>
                 (system_prompt specialty ++ nl ++ nl ++ "Task: " ++ task)%string)
            specialists)%list
  /\ NoDup (map fst (fst out))
  /\ (forall k, In k (map fst (fst out)) <-> In k specialists)
  /\ (List.length (fst out) <= List.length specialists)%nat
  /\ (List.length (fst out) = List.length specialists <-> NoDup specialists).
Proof.
  intros out system_prompt. subst out. unfold collaborate.
  match goal with |- context [collaborate_loop _ _ _ _ _ _ ?w1] => set (w' := w1) end.
  destruct (collaborate_loop_spec task verbose specialists [] w' (NoDup_nil _))
    as (Hp & Hn & Hk).
  set (out := collaborate_loop str_upper self task verbose specialists [] w') in *.
  assert (Hkeys : forall k, In k (map fst (fst out)) <-> In k specialists).
  { intros k. rewrite Hk. cbn. tauto. }
  assert (Hle : (List.length (map fst (fst out)) <= List.length specialists)%nat).
  { apply NoDup_incl_length; [exact Hn|]. intros k. apply Hkeys. }
  rewrite length_map in Hle.
  refine (conj _ (conj Hn (conj Hkeys (conj Hle _)))).
  - rewrite Hp. subst w'. rewrite tprints_prompts.
    (* [full_prompt] looks the name up in the table, which unfolds to the
       case distinction of the statement *)
    reflexivity.
  - split.
    + intros Hlen.
      apply NoDup_incl_NoDup with (l := map fst (fst out)); [exact Hn| |].
      * rewrite length_map. lia.
      * intros k. apply Hkeys.
    + intros Hnodup. apply Nat.le_antisymm; [exact Hle|].
      rewrite <- (length_map fst (fst out)).
      apply NoDup_incl_length; [exact Hnodup|]. intros k. apply Hkeys.
Qed.

End Collaboration.

Section CollaborationExamples.
Import Multi.

(** The coder is named twice: three requests are sent, two answers are
    kept, and the good answer to the first request is overwritten by the
    failure of the third. *)
Example coder_named_twice :
  let out := collaborate (fun s => s) one_shot "Check a palindrome."
               ["coder"; "debugger"; "coder"] false
               {| console_of := []; prompts := [] |} in
  fst out = [("coder", "Error: connection refused");
             ("debugger", "Error: connection refused")]
  /\ List.length (prompts (snd out)) = 3%nat
  /\ console_of (snd out) = [].
Proof. vm_compute. repeat split; reflexivity. Qed.

End CollaborationExamples.

(* ===================================================================== *)
(** * The further properties on examples *)
(* ===================================================================== *)

Section FurtherExamples.
Import MoreExamples.

(** Thirteen iterations take twenty-five node executions: at the library's
    default limit of twenty-five the graph gives up after the thirteenth
    model call, and one round more lets the run come through. *)
Example eager_at_default_limit :
  fst (@Agent.run AsciiStr eager 25 "What is 2+2?" false world0)
  = "Error running agent: Recursion limit of 25 reached without hitting a stop condition. You can increase the limit by setting the `recursion_limit` config key."
  /\ List.length (llm_calls (snd (@Agent.run AsciiStr eager 25 "What is 2+2?" false world0)))
     = 13%nat
  /\ fst (@Agent.run AsciiStr eager 26 "What is 2+2?" false world0)
     = "Let me calculate that.".
Proof. vm_compute. repeat split; reflexivity. Qed.

(** A JSON-mode reply without content: the decoder raises [TypeError] and
    no warning is printed. *)
Example structured_reply_without_content :
  Service.ask_ollama_structured mute_host "llama3" "List three colours." None
    Service.default_host []
  = (Raises (Exception "TypeError"
               "the JSON object must be str, bytes or bytearray, not NoneType"), []).
Proof. reflexivity. Qed.

(** A chat stream with a chunk without content: the chunk is echoed as
    [None], the rest of the stream is not read, and [None] comes back.  The
    reply without content outside a stream is handed back as [None], too. *)
Example chat_stream_without_content :
  Client.chat stuttering (Client.__init__ [] "http://localhost:11434") "llama3.2" [] true []
  = (Returns None,
     [(nl ++ "llama3.2: ")%string; "Hi"; "None";
      ("Error in chat: can only concatenate str (not " ++ dq ++ "NoneType" ++ dq
         ++ ") to str" ++ nl)%string])
  /\ Client.chat stuttering (Client.__init__ [] "http://localhost:11434") "llama3.2" []
       false []
     = (Returns None, []).
Proof. vm_compute. split; reflexivity. Qed.

End FurtherExamples.
